(** * Datastream deployment automation: a shallow embedding

    Embedding of
    [tools/datastream-deployment-python-automation/create_connection_profiles_and_datastream.py]:
    four remote operations (create source profile, create destination
    profile, create stream, start stream) and the [main] sequencer that
    drives them.

    The script is a straight line of console and network effects.  They are
    modelled by a small monad of our own: a computation reads the operator's
    keyboard and the remote API from a [World], may end normally, through
    [sys.exit] or through an uncaught exception, and emits the list of the
    events it performed, oldest first. *)

From Stdlib Require Import ZArith List String Ascii Bool Lia DecimalString.
Import ListNotations.
Open Scope string_scope.
Open Scope Z_scope.

(** ** Python values used by the script *)

(** What [json.dumps] is applied to: dicts keep their insertion order.
    Floats are left out (their text is not modelled): a configured port is
    an integer, a string, a boolean, [None], a list or a dict. *)
#[warnings="-register-all"]
Inductive json : Type :=
| JNull
| JBool (b : bool)
| JInt (n : Z)
| JStr (s : string)
| JList (items : list json)
| JDict (items : list (string * json)).

Definition dquote : ascii := "034"%char.
Definition backslash : ascii := "092"%char.

Definition hex_digit (n : nat) : ascii :=
  nth n (list_ascii_of_string "0123456789abcdef") "0"%char.

(** One character under [json.dumps] with its default [ensure_ascii=True]:
    the short escapes of the encoder's table, [\u00xx] for every other
    character outside the printable ASCII range.  A character of a Rocq
    string stands for the code point of the same number, so the strings of
    this file are the Python strings of code points 0 to 255; code points
    above 255 (which [json.dumps] writes with four hexadecimal digits, or as
    a surrogate pair) are outside the model. *)
Definition escape_char (c : ascii) : string :=
  let n := nat_of_ascii c in
  if Nat.eqb n 34 then String backslash (String dquote "")
  else if Nat.eqb n 92 then String backslash (String backslash "")
  else if Nat.eqb n 8 then String backslash "b"
  else if Nat.eqb n 9 then String backslash "t"
  else if Nat.eqb n 10 then String backslash "n"
  else if Nat.eqb n 12 then String backslash "f"
  else if Nat.eqb n 13 then String backslash "r"
  else if (Nat.leb 32 n && Nat.leb n 126)%bool then String c ""
  else String backslash
         ("u00" ++ String (hex_digit (Nat.div n 16))
                     (String (hex_digit (Nat.modulo n 16)) "")).

Fixpoint escape_string (s : string) : string :=
  match s with
  | EmptyString => ""
  | String c rest => escape_char c ++ escape_string rest
  end.

Definition quoted (s : string) : string :=
  String dquote (escape_string s ++ String dquote "").

(** [json.dumps] with its default separators [", "] and [": "]. *)
Fixpoint json_dumps (j : json) : string :=
  match j with
  | JNull => "null"
  | JBool true => "true"
  | JBool false => "false"
  | JInt n => NilZero.string_of_int (Z.to_int n)
  | JStr s => quoted s
  | JList items =>
      "[" ++ (fix elems (l : list json) : string :=
                match l with
                | [] => ""
                | x :: rest =>
                    json_dumps x ++
                    match rest with [] => "" | _ :: _ => ", " ++ elems rest end
                end) items ++ "]"
  | JDict items =>
      "{" ++ (fix members (l : list (string * json)) : string :=
                match l with
                | [] => ""
                | (k, v) :: rest =>
                    quoted k ++ ": " ++ json_dumps v ++
                    match rest with [] => "" | _ :: _ => ", " ++ members rest end
                end) items ++ "}"
  end.

(** ** Configuration ([variables.py]) *)

(** [source_profile_config]: the dict of [variables.py], with the keys the
    script reads (all present, so no lookup raises); the names and
    identifiers are strings, the port is whatever [json.dumps] can write. *)
Record SourceProfileConfig : Type := {
  source_profile_name : string;
  source_profile_id : string;
  source_db_hostname : string;
  source_db_port : json;
  source_db_username : string
}.

(** [destination_profile_config]. *)
Record DestinationProfileConfig : Type := {
  destination_profile_name : string;
  destination_profile_id : string;
  storage_bucket_name : string;
  storage_bucket_prefix : string
}.

(** [stream_config]. *)
Record StreamConfig : Type := {
  stream_id : string;
  stream_name : string
}.

(** ** Requests, responses and the observable events of a run *)

(** The arguments of a call to [requests.request].  [headers] is the dict
    the script passes as [headers=]; what the library adds to it on the wire
    is not the script's and is not modelled. *)
Record Request : Type := {
  verb : string;
  url : string;
  headers : list (string * string);
  data : string
}.

Record Response : Type := {
  status_code : Z;
  text : string
}.

(** The four remote operations, in the order [main] calls them. *)
Inductive Op : Type := OpSource | OpDest | OpStream | OpStart.

Definition Op_eqb (a b : Op) : bool :=
  match a, b with
  | OpSource, OpSource | OpDest, OpDest
  | OpStream, OpStream | OpStart, OpStart => true
  | _, _ => false
  end.

Inductive Event : Type :=
| Prompt (message : string)        (* getpass shows its prompt, input is masked *)
| Call (o : Op)                    (* an operation is entered *)
| Send (req : Request)             (* requests.request sends *)
| Recv (resp : Response)           (* ... and the response arrives *)
| Print (line : string)            (* print *)
| Sleep (secs : Z)                 (* time.sleep *)
| Return (o : Op) (stat : bool).   (* an operation returns its flag *)

(** Exceptions the script does not catch. *)
Inductive exn : Type := EOFError | RequestException.

Inductive outcome (A : Type) : Type :=
| Normal (a : A)
| SystemExit (code : Z)
| Raised (e : exn).
Arguments Normal {A} a.
Arguments SystemExit {A} code.
Arguments Raised {A} e.

(** What a run meets: the lines the operator types at the masked prompts,
    the remote API (its answer may depend on the requests it has already
    seen and on the current one; [None] is a transport failure), and the
    requests sent so far. *)
Record World : Type := {
  keyboard : list string;
  remote : list Request -> Request -> option Response;
  seen : list Request
}.

Definition M (A : Type) : Type := World -> outcome A * World * list Event.

Definition ret {A} (a : A) : M A := fun w => (Normal a, w, []).

Definition bind {A B} (m : M A) (f : A -> M B) : M B :=
  fun w =>
    match m w with
    | (Normal a, w1, t1) =>
        match f a w1 with
        | (r, w2, t2) => (r, w2, (t1 ++ t2)%list)
        end
    | (SystemExit code, w1, t1) => (SystemExit code, w1, t1)
    | (Raised e, w1, t1) => (Raised e, w1, t1)
    end.

Notation "x <- m ;; k" := (bind m (fun x => k))
  (at level 61, m at next level, right associativity).
Notation "m ;; k" := (bind m (fun _ => k))
  (at level 61, right associativity).

(** [getpass.getpass(prompt)] *)
Definition getpass (prompt : string) : M string :=
  fun w =>
    match keyboard w with
    | [] => (Raised EOFError, w, [Prompt prompt])
    | line :: rest =>
        (Normal line,
         {| keyboard := rest; remote := remote w; seen := seen w |},
         [Prompt prompt])
    end.

(** [requests.request(verb, url, headers=headers, data=payload)] *)
Definition requests_request (verb url : string)
    (headers : list (string * string)) (data : string) : M Response :=
  fun w =>
    let req := {| verb := verb; url := url; headers := headers; data := data |} in
    let w' := {| keyboard := keyboard w; remote := remote w;
                 seen := (seen w ++ [req])%list |} in
    match remote w (seen w) req with
    | Some resp => (Normal resp, w', [Send req; Recv resp])
    | None => (Raised RequestException, w', [Send req])
    end.

Definition print (line : string) : M unit := fun w => (Normal tt, w, [Print line]).

Definition time_sleep (secs : Z) : M unit := fun w => (Normal tt, w, [Sleep secs]).

Definition sys_exit {A} (code : Z) : M A := fun w => (SystemExit code, w, []).

(** Entry and exit of one of the four operations, recorded around its body. *)
Definition def (o : Op) (body : M bool) : M bool :=
  fun w =>
    match body w with
    | (Normal stat, w1, t) => (Normal stat, w1, Call o :: (t ++ [Return o stat])%list)
    | (r, w1, t) => (r, w1, Call o :: t)
    end.

(** ** Observations on the events of a run *)

(** What reaches the console through [print]. *)
Fixpoint printed (evs : list Event) : list string :=
  match evs with
  | [] => []
  | Print line :: rest => line :: printed rest
  | _ :: rest => printed rest
  end.

(** What [main] and the operations themselves show on the console: the
    prompts and the printed lines.  The traceback the interpreter writes
    after an uncaught exception is added by [terminal] below. *)
Fixpoint console (evs : list Event) : list string :=
  match evs with
  | [] => []
  | Prompt message :: rest => message :: console rest
  | Print line :: rest => line :: console rest
  | _ :: rest => console rest
  end.

Fixpoint sent (evs : list Event) : list Request :=
  match evs with
  | [] => []
  | Send req :: rest => req :: sent rest
  | _ :: rest => sent rest
  end.

Fixpoint received (evs : list Event) : list Response :=
  match evs with
  | [] => []
  | Recv resp :: rest => resp :: received rest
  | _ :: rest => received rest
  end.

(** The requests sent while operation [o] is running; [inside] tells whether
    the scan is currently between [Call o] and its [Return]. *)
Fixpoint sent_by (o : Op) (inside : bool) (evs : list Event) : list Request :=
  match evs with
  | [] => []
  | Call o' :: rest => sent_by o (Op_eqb o o') rest
  | Return _ _ :: rest => sent_by o false rest
  | Send req :: rest =>
      if inside then req :: sent_by o inside rest else sent_by o inside rest
  | _ :: rest => sent_by o inside rest
  end.

(** Rank of an operation in the sequence. *)
Definition position (o : Op) : nat :=
  match o with OpSource => 0 | OpDest => 1 | OpStream => 2 | OpStart => 3 end.

(** Status codes an operation treats as success. *)
Definition accepted (o : Op) (code : Z) : bool :=
  match o with
  | OpStart => code =? 200
  | _ => (code =? 200) || (code =? 409)
  end.

(** [needle in hay] *)
Fixpoint is_substring (needle hay : string) : bool :=
  (prefix needle hay ||
   match hay with
   | EmptyString => false
   | String _ rest => is_substring needle rest
   end)%bool.

(** Value of a header, by name. *)
Fixpoint header (name : string) (hs : list (string * string)) : option string :=
  match hs with
  | [] => None
  | (k, v) :: rest => if String.eqb k name then Some v else header name rest
  end.

(** A request with its [Authorization] value blanked. *)
Definition without_authorization (req : Request) : Request :=
  {| verb := verb req;
     url := url req;
     headers := map (fun kv => if String.eqb (fst kv) "Authorization"
                               then (fst kv, "") else kv) (headers req);
     data := data req |}.

(** The requests of a run, the body blanked in those the source-profile
    operation sends and nothing else touched. *)
Fixpoint without_source_body (inside_source : bool) (evs : list Event)
    : list Request :=
  match evs with
  | [] => []
  | Call o :: rest => without_source_body (Op_eqb o OpSource) rest
  | Return _ _ :: rest => without_source_body false rest
  | Send req :: rest =>
      (if inside_source
       then {| verb := verb req; url := url req; headers := headers req;
               data := "" |}
       else req) :: without_source_body inside_source rest
  | _ :: rest => without_source_body inside_source rest
  end.

(** A remote API that plays back a fixed list of answers, one per request,
    and fails once the list is used up. *)
Definition canned (answers : list Response)
    : list Request -> Request -> option Response :=
  fun seen _ => nth_error answers (List.length seen).

(** The world once [req] has been sent. *)
Definition sending (w : World) (req : Request) : World :=
  {| keyboard := keyboard w; remote := remote w; seen := (seen w ++ [req])%list |}.

(** The operations entered during a run, in order. *)
Fixpoint invoked (evs : list Event) : list Op :=
  match evs with
  | [] => []
  | Call o :: rest => o :: invoked rest
  | _ :: rest => invoked rest
  end.

(** The flags the operations returned, in order. *)
Fixpoint returned (evs : list Event) : list (Op * bool) :=
  match evs with
  | [] => []
  | Return o stat :: rest => (o, stat) :: returned rest
  | _ :: rest => returned rest
  end.

(** ** The four operations *)

Definition create_source_connection_profile (source_config : SourceProfileConfig)
    (db_password token project location : string) : M bool :=
  def OpSource (
    let profile_name := source_profile_name source_config in
    let profile_id := source_profile_id source_config in
    let db_hostname := source_db_hostname source_config in
    let db_port := source_db_port source_config in
    let db_username := source_db_username source_config in
    let url := "https://datastream.googleapis.com/v1/projects/" ++ project ++ "/" ++
               "locations/" ++ location ++ "/connectionProfiles" ++
               "?connectionProfileId=" ++ profile_id in
    let payload := json_dumps (JDict [
        ("displayName", JStr profile_name);
        ("mysqlProfile", JDict [
            ("hostname", JStr db_hostname);
            ("port", db_port);
            ("username", JStr db_username);
            ("password", JStr db_password)]);
        ("staticServiceIpConnectivity", JDict [])]) in
    let headers := [("Authorization", token);
                    ("Content-Type", "application/json")] in
    response <- requests_request "POST" url headers payload ;;
    if status_code response =? 200 then
      print ("Source connection profile " ++ profile_name ++ " created successfully") ;;
      ret true
    else if status_code response =? 409 then
      print ("Source connection profile " ++ profile_name ++ " already exist") ;;
      ret true
    else
      print ("Issue while creating source connection profile: " ++ text response) ;;
      ret false).

Definition create_destination_connection_profile (project location : string)
    (destination_config : DestinationProfileConfig) (token : string) : M bool :=
  def OpDest (
    let d_profile_name := destination_profile_name destination_config in
    let d_profile_id := destination_profile_id destination_config in
    let bucket_name := storage_bucket_name destination_config in
    let bucket_prefix := storage_bucket_prefix destination_config in
    let url := "https://datastream.clients6.google.com/v1alpha1/" ++
               "projects/" ++ project ++ "/locations/" ++ location ++
               "/connectionProfiles?connectionProfileId=" ++ d_profile_id in
    let payload := json_dumps (JDict [
        ("displayName", JStr d_profile_name);
        ("gcsProfile", JDict [
            ("bucketName", JStr bucket_name);
            ("rootPath", JStr bucket_prefix)])]) in
    let headers := [("Authorization", token);
                    ("Content-Type", "application/json")] in
    response <- requests_request "POST" url headers payload ;;
    if status_code response =? 200 then
      print ("Destination connection profile " ++ d_profile_id ++ " created successfully") ;;
      ret true
    else if status_code response =? 409 then
      print ("Destination connection profile " ++ d_profile_id ++ " already exist") ;;
      ret true
    else
      print ("Issue while creating destination connection profile: " ++ text response) ;;
      ret false).

Definition start_stream (project location token : string)
    (s_config : StreamConfig) : M bool :=
  def OpStart (
    let stream_id := stream_id s_config in
    let name := stream_name s_config in
    let url := "https://datastream.googleapis.com/v1/" ++
               "projects/" ++ project ++ "/locations/" ++ location ++
               "/streams/" ++ stream_id ++ "?" ++
               "updateMask=state" in
    let payload := json_dumps (JDict [("state", JStr "RUNNING")]) in
    let headers := [("Authorization", token);
                    ("Content-Type", "application/json")] in
    response <- requests_request "PATCH" url headers payload ;;
    if status_code response =? 200 then
      print ("Stream " ++ name ++ " started successfully") ;;
      ret true
    else
      print ("Issue while starting stream: " ++ text response) ;;
      ret false).

(** ** The module-level names imported from [variables.py], [create_stream]
       (which reads two of them directly) and [main] *)

Section Script.

Variables PROJECT_ID GCP_LOCATION : string.
Variable source_profile_config : SourceProfileConfig.
Variable destination_profile_config : DestinationProfileConfig.
Variable stream_config : StreamConfig.

Definition create_stream (project location : string) (s_config : StreamConfig)
    (token : string) : M bool :=
  def OpStream (
    let stream_id := stream_id s_config in
    let name := stream_name s_config in
    let source_connection_id := source_profile_id source_profile_config in
    let destination_connection_id :=
      destination_profile_id destination_profile_config in
    let url := "https://datastream.clients6.google.com/v1alpha1/projects/" ++
               project ++ "/" ++
               "locations/" ++ location ++ "/streams?streamId=" ++ stream_id in
    let source_connection_path :=
      "projects/" ++ project ++ "/locations/" ++ location ++ "/" ++
      "connectionProfiles/" ++ source_connection_id in
    let destination_connection_path :=
      "projects/" ++ project ++ "/locations/" ++ location ++ "/" ++
      "connectionProfiles/" ++ destination_connection_id in
    let payload := json_dumps (JDict [
        ("displayName", JStr name);
        ("sourceConfig", JDict [
            ("sourceConnectionProfileName", JStr source_connection_path);
            ("mysqlSourceConfig", JDict [
                ("allowlist", JDict [("mysqlDatabases", JList [])]);
                ("rejectlist", JDict [("mysqlDatabases", JList [])])])]);
        ("destinationConfig", JDict [
            ("destinationConnectionProfileName", JStr destination_connection_path);
            ("gcsDestinationConfig", JDict [
                ("path", JStr "");
                ("avroFileFormat", JDict [])])]);
        ("backfillAll", JDict [("mysqlExcludedObjects", JDict [])])]) in
    let headers := [("Authorization", token);
                    ("Content-Type", "application/json")] in
    response <- requests_request "POST" url headers payload ;;
    if status_code response =? 200 then
      print ("Stream " ++ name ++ " created successfully") ;;
      ret true
    else if status_code response =? 409 then
      print ("Stream " ++ name ++ " already exist") ;;
      ret true
    else
      print ("Issue while creating stream: " ++ text response) ;;
      ret false).

Definition main : M unit :=
  auth_token <- getpass ("Enter auth_token, you can generate auth token by " ++
                         "running gcloud config set project <project_id> && " ++
                         "gcloud auth print-access-token: ") ;;
  source_db_password <- getpass "Enter Source DB Password: " ;;
  let auth_token := "Bearer " ++ auth_token in
  source_connection_profile_status <-
    create_source_connection_profile source_profile_config source_db_password
                                     auth_token PROJECT_ID GCP_LOCATION ;;
  if (source_connection_profile_status : bool) then
    destination_connection_profile_status <-
      create_destination_connection_profile PROJECT_ID GCP_LOCATION
                                            destination_profile_config auth_token ;;
    if (destination_connection_profile_status : bool) then
      create_stream_status <-
        create_stream PROJECT_ID GCP_LOCATION stream_config auth_token ;;
      if (create_stream_status : bool) then
        time_sleep 60 ;;
        start_stream_status <-
          start_stream PROJECT_ID GCP_LOCATION auth_token stream_config ;;
        if (start_stream_status : bool) then
          print "Process Completed!"
        else
          sys_exit 1
      else
        ret tt
    else
      sys_exit 1
  else
    sys_exit 1.

(** The four call sites of [main], by operation. *)
Definition invoke (o : Op) (db_password token : string) : M bool :=
  match o with
  | OpSource =>
      create_source_connection_profile source_profile_config db_password
                                       token PROJECT_ID GCP_LOCATION
  | OpDest =>
      create_destination_connection_profile PROJECT_ID GCP_LOCATION
                                            destination_profile_config token
  | OpStream => create_stream PROJECT_ID GCP_LOCATION stream_config token
  | OpStart => start_stream PROJECT_ID GCP_LOCATION token stream_config
  end.

(** The resource an operation's confirmation names. *)
Definition resource (o : Op) : string :=
  match o with
  | OpSource => source_profile_name source_profile_config
  | OpDest => destination_profile_id destination_profile_config
  | OpStream | OpStart => stream_name stream_config
  end.

(** What an operation does when the remote gives [answer] to its request. *)
Definition probe (o : Op) (db_password token : string)
    (answer : option Response) : list Event :=
  snd (invoke o db_password token
         {| keyboard := []; remote := fun _ _ => answer; seen := [] |}).

(** The request an operation sends, read off its run. *)
Definition request_of (o : Op) (db_password token : string) : Request :=
  hd {| verb := ""; url := ""; headers := []; data := "" |}
     (sent (probe o db_password token None)).

(** The line an operation prints on a response, read off its run. *)
Definition message_of (o : Op) (resp : Response) : string :=
  hd "" (printed (probe o "" "" (Some resp))).

End Script.

(** ** Running the script as a process *)

(** A fresh process: nothing sent yet. *)
Definition boot (typed : list string)
    (api : list Request -> Request -> option Response) : World :=
  {| keyboard := typed; remote := api; seen := [] |}.

(** The status the interpreter exits with: 0 when [main] returns, the
    argument of [sys.exit], 1 after an uncaught exception. *)
Definition exit_status (r : outcome unit) : Z :=
  match r with
  | Normal _ => 0
  | SystemExit code => code
  | Raised _ => 1
  end.

Definition result {A} (x : outcome A * World * list Event) : outcome A := fst (fst x).
Definition events {A} (x : outcome A * World * list Event) : list Event := snd x.

(** What the interpreter writes when the script ends on an uncaught
    exception: the traceback, whose frames are fixed text and whose last
    line names the exception and carries its message.  For [EOFError] that
    line is fixed; for an exception of [requests.request] the message is the
    library's, [describe] applied to the requests sent before and to the
    failing one (it may quote a URL or a header value).  Nothing is written
    after a normal return or [sys.exit]. *)
Definition traceback (describe : list Request -> Request -> string)
    (x : outcome unit * World * list Event) : list string :=
  match result x with
  | Raised EOFError => ["EOFError"]
  | Raised RequestException =>
      match rev (sent (events x)) with
      | req :: before => [describe (rev before) req]
      | [] => []
      end
  | _ => []
  end.

(** Everything the operator sees: the prompts, the printed lines, then the
    traceback. *)
Definition terminal (describe : list Request -> Request -> string)
    (x : outcome unit * World * list Event) : list string :=
  (console (events x) ++ traceback describe x)%list.

(** ** Further observations *)

(** The order in which [main] calls the operations. *)
Definition sequence : list Op := [OpSource; OpDest; OpStream; OpStart].

(** The arguments of the calls to [time.sleep], in order. *)
Fixpoint sleeps (evs : list Event) : list Z :=
  match evs with
  | [] => []
  | Sleep secs :: rest => secs :: sleeps rest
  | _ :: rest => sleeps rest
  end.

(** The world a computation leaves. *)
Definition world_of {A} (x : outcome A * World * list Event) : World := snd (fst x).

(** Every character of [s] passes [p]. *)
Fixpoint all_chars (p : ascii -> bool) (s : string) : bool :=
  match s with
  | EmptyString => true
  | String c rest => p c && all_chars p rest
  end.

(** Printable ASCII, space to tilde. *)
Definition printable (c : ascii) : bool :=
  (Nat.leb 32 (nat_of_ascii c) && Nat.leb (nat_of_ascii c) 126)%bool.

(** Printable ASCII other than the double quote and the backslash: the
    characters [json.dumps] copies as they are. *)
Definition plain (c : ascii) : bool :=
  (printable c && negb (Nat.eqb (nat_of_ascii c) 34)
               && negb (Nat.eqb (nat_of_ascii c) 92))%bool.

(** [s] between double quotes, nothing escaped. *)
Definition in_quotes (s : string) : string :=
  String dquote (s ++ String dquote "").

(** The parent resource of the profiles and of the stream. *)
Definition parent (project location : string) : string :=
  "projects/" ++ project ++ "/locations/" ++ location.

(** ** A sample configuration and sample remote behaviours *)

Module Sample.

Definition project : string := "acme-analytics".
Definition location : string := "us-central1".

Definition source : SourceProfileConfig :=
  {| source_profile_name := "orders-mysql";
     source_profile_id := "orders-mysql-id";
     source_db_hostname := "10.20.0.7";
     source_db_port := JInt 3306;
     source_db_username := "replicator" |}.

Definition destination : DestinationProfileConfig :=
  {| destination_profile_name := "orders-bucket";
     destination_profile_id := "orders-bucket-id";
     storage_bucket_name := "acme-orders-cdc";
     storage_bucket_prefix := "/raw" |}.

Definition stream : StreamConfig :=
  {| stream_id := "orders-stream-id"; stream_name := "orders-stream" |}.

Definition token : string := "ya29.a0Af-token".
Definition password : string := "s3cr3t-pw".

(** What the operator types at the two prompts. *)
Definition typed : list string := [token; password].

(** Another operator, other secrets. *)
Definition typed' : list string := ["ya29.zzz-other"; "pa55w0rd"].

Definition answer (code : Z) (body : string) : Response :=
  {| status_code := code; text := body |}.

(** The body [{"error":"invalid argument"}]. *)
Definition invalid_argument : string :=
  "{" ++ quoted "error" ++ ":" ++ quoted "invalid argument" ++ "}".

(** Every call answers 200. *)
Definition all_ok : list Response :=
  [answer 200 "{}"; answer 200 "{}"; answer 200 "{}"; answer 200 "{}"].

(** The source profile is rejected. *)
Definition source_rejected : list Response := [answer 403 "permission denied"].

(** The destination profile is rejected. *)
Definition destination_rejected : list Response :=
  [answer 200 "{}"; answer 400 "bad bucket"].

(** The profiles are accepted, the stream creation answers 500. *)
Definition stream_rejected : list Response :=
  [answer 200 "{}"; answer 200 "{}"; answer 500 invalid_argument].

(** Everything exists already, the start is accepted. *)
Definition all_exist : list Response :=
  [answer 409 "exists"; answer 409 "exists"; answer 409 "exists"; answer 200 "{}"].

(** The start answers 409. *)
Definition start_conflict : list Response :=
  [answer 200 "{}"; answer 200 "{}"; answer 200 "{}"; answer 409 "already running"].

(** A remote that answers 201 to whatever it is sent. *)
Definition always_201 : list Request -> Request -> option Response :=
  fun _ _ => Some (answer 201 "{}").

(** A remote that rejects every request and repeats, in its error body,
    the credential and the body it was sent. *)
Definition echoing : list Request -> Request -> option Response :=
  fun _ req =>
    Some (answer 401
            ("rejected " ++
             match header "Authorization" (headers req) with
             | Some v => v
             | None => ""
             end ++ " " ++ data req)).

Definition run (typed : list string)
    (api : list Request -> Request -> option Response)
    : outcome unit * World * list Event :=
  main project location source destination stream (boot typed api).

Definition op (o : Op) (db_password token : string)
    (api : list Request -> Request -> option Response)
    : outcome bool * World * list Event :=
  invoke project location source destination stream o db_password token
         (boot [] api).

(** Runs of [main] and of single operations used below. *)
Definition failed_stream_run := run typed (canned stream_rejected).
Definition failed_source_run := run typed (canned source_rejected).
Definition all_ok_run := run typed (canned all_ok).
Definition all_ok_run' := run typed' (canned all_ok).
Definition echoing_run := run typed echoing.

(** The third request of the all-200 run. *)
Definition stream_request : Request :=
  nth 2 (sent (events all_ok_run))
      {| verb := ""; url := ""; headers := []; data := "" |}.

Definition destination_ok :=
  op OpDest password ("Bearer " ++ token) (canned [answer 200 "{}"]).
Definition stream_exists :=
  op OpStream password ("Bearer " ++ token) (canned [answer 409 "exists"]).
Definition start_conflicts :=
  op OpStart password ("Bearer " ++ token) (canned [answer 409 "exists"]).
Definition start_refused :=
  op OpStart password ("Bearer " ++ token) (canned [answer 503 "try later"]).
Definition created_201 (o : Op) :=
  op o password ("Bearer " ++ token) always_201.

(** More runs: the second request gets no response; the operator types one
    line only; a single operation left without response; the same conflict
    with another body. *)
Definition dropped_run := run typed (canned [answer 200 "{}"]).
Definition one_line_run := run [token] (canned all_ok).
Definition all_exist_run := run typed (canned all_exist).
Definition destination_unreachable :=
  op OpDest password ("Bearer " ++ token) (canned []).
Definition stream_exists' :=
  op OpStream "" "Bearer other" (canned [answer 409 "ALREADY_EXISTS"]).

(** The first request of the all-200 run. *)
Definition source_request : Request :=
  nth 0 (sent (events all_ok_run))
      {| verb := ""; url := ""; headers := []; data := "" |}.

(** Other secrets, and the run whose second request gets no response
    played again with each of them. *)
Definition other_token : string := "ya29.zzz-other".
Definition other_password : string := "pa55w0rd".
Definition dropped_run_other_token :=
  run [other_token; password] (canned [answer 200 "{}"]).
Definition dropped_run_other_password :=
  run [token; other_password] (canned [answer 200 "{}"]).

(** The run whose first request cannot be sent. *)
Definition unsent_run := run typed (canned []).

(** Two messages of the library: one names the URL that could not be
    reached, one quotes the header value it refuses. *)
Definition connection_error : list Request -> Request -> string :=
  fun _ req => "ConnectionError: " ++ url req.
Definition invalid_header : list Request -> Request -> string :=
  fun _ req =>
    "InvalidHeader: " ++
    match header "Authorization" (headers req) with
    | Some v => v
    | None => ""
    end.

(** A password with an accented letter (code point 233) and a double
    quote, and the all-200 run with it. *)
Definition accented_password : string :=
  "caf" ++ String "233"%char (String dquote "s").
Definition accented_run := run [token; accented_password] (canned all_ok).

End Sample.

(** ** Strings *)

Lemma prefix_app (s t : string) : prefix s (s ++ t) = true.
Proof.
  induction s as [|c s IH]; simpl.
  - destruct t; reflexivity.
  - destruct (ascii_dec c c) as [_|ne]; [exact IH | now elim ne].
Qed.

Lemma prefix_split (s h : string) :
  prefix s h = true -> exists t, h = s ++ t.
Proof.
  revert h; induction s as [|c s IH]; intros h.
  - intros _. exists h. reflexivity.
  - destruct h as [|d h]; simpl; [discriminate|].
    destruct (ascii_dec c d) as [->|]; [|discriminate].
    intros H. destruct (IH h H) as [t ->]. exists t. reflexivity.
Qed.

Lemma is_substring_prefix (needle hay : string) :
  prefix needle hay = true -> is_substring needle hay = true.
Proof. intros H. destruct hay; cbn [is_substring]; rewrite H; reflexivity. Qed.

Lemma is_substring_app (needle before after : string) :
  is_substring needle (before ++ needle ++ after) = true.
Proof.
  induction before as [|c b IH]; simpl.
  - apply is_substring_prefix, prefix_app.
  - rewrite IH. apply orb_true_r.
Qed.

Lemma append_empty_r (s : string) : s ++ "" = s.
Proof. induction s; simpl; congruence. Qed.

Lemma is_substring_end (needle before : string) :
  is_substring needle (before ++ needle) = true.
Proof.
  rewrite <- (append_empty_r needle) at 2. apply is_substring_app.
Qed.

(** [is_substring] decides the usual notion. *)
Lemma is_substring_spec (needle hay : string) :
  is_substring needle hay = true <->
  exists before after, hay = before ++ needle ++ after.
Proof.
  split.
  - induction hay as [|c h IH]; cbn [is_substring]; intros H.
    + rewrite orb_false_r in H. destruct needle; [|discriminate].
      exists "", "". reflexivity.
    + apply orb_true_iff in H. destruct H as [H|H].
      * destruct (prefix_split _ _ H) as [t E]. exists "", t. exact E.
      * destruct (IH H) as (b & a & ->). exists (String c b), a. reflexivity.
  - intros (b & a & ->). apply is_substring_app.
Qed.

Lemma bearer_differs (token : string) : "Bearer " ++ token <> token.
Proof.
  intros H. apply (f_equal String.length) in H. simpl in H. lia.
Qed.

Lemma append_assoc (a b c : string) : (a ++ b) ++ c = a ++ b ++ c.
Proof. induction a as [|x a IH]; simpl; [reflexivity | now rewrite IH]. Qed.

Lemma is_substring_app_r (needle a b : string) :
  is_substring needle b = true -> is_substring needle (a ++ b) = true.
Proof.
  intros H. apply is_substring_spec in H. destruct H as (x & y & ->).
  rewrite <- append_assoc. apply is_substring_app.
Qed.

Lemma is_substring_head3 (a b c rest : string) :
  is_substring (a ++ b ++ c) (a ++ b ++ c ++ rest) = true.
Proof.
  apply is_substring_prefix.
  rewrite <- (append_assoc b c rest), <- (append_assoc a (b ++ c) rest).
  apply prefix_app.
Qed.

Lemma all_chars_app (p : ascii -> bool) (a b : string) :
  all_chars p (a ++ b) = (all_chars p a && all_chars p b)%bool.
Proof.
  induction a as [|x a IH]; simpl; [reflexivity|].
  rewrite IH. apply andb_assoc.
Qed.

Lemma escape_char_printable (c : ascii) :
  all_chars printable (escape_char c) = true.
Proof. destruct c as [[] [] [] [] [] [] [] []]; reflexivity. Qed.

Lemma escape_string_printable (s : string) :
  all_chars printable (escape_string s) = true.
Proof.
  induction s as [|c s IH]; simpl; [reflexivity|].
  now rewrite all_chars_app, escape_char_printable, IH.
Qed.

Lemma quoted_printable (s : string) : all_chars printable (quoted s) = true.
Proof.
  unfold quoted. cbn [all_chars]. rewrite all_chars_app, escape_string_printable.
  reflexivity.
Qed.

Lemma escape_char_plain (c : ascii) :
  plain c = true -> escape_char c = String c "".
Proof. destruct c as [[] [] [] [] [] [] [] []]; intros H; try reflexivity; discriminate H. Qed.

(** [json.dumps] leaves a string of plain characters as it is. *)
Lemma escape_string_plain (s : string) :
  all_chars plain s = true -> escape_string s = s.
Proof.
  induction s as [|c s IH]; simpl; [reflexivity|].
  intros H. apply andb_true_iff in H. destruct H as [Hc Hs].
  now rewrite (escape_char_plain c Hc), (IH Hs).
Qed.

Lemma quoted_plain (s : string) :
  all_chars plain s = true -> quoted s = in_quotes s.
Proof.
  intros H. unfold quoted, in_quotes. now rewrite (escape_string_plain s H).
Qed.

Lemma string_of_uint_printable (d : Decimal.uint) :
  all_chars printable (NilEmpty.string_of_uint d) = true.
Proof. induction d; simpl; try reflexivity; exact IHd. Qed.

Lemma string_of_int_printable (n : Z) :
  all_chars printable (NilZero.string_of_int (Z.to_int n)) = true.
Proof.
  unfold NilZero.string_of_int, NilZero.string_of_uint.
  destruct (Z.to_int n) as [d|d]; destruct d; cbn [all_chars];
    try reflexivity; apply string_of_uint_printable.
Qed.

(** Induction on JSON values, through the lists they nest. *)
Lemma json_nested_ind (P : json -> Prop) :
  P JNull ->
  (forall b, P (JBool b)) ->
  (forall n, P (JInt n)) ->
  (forall s, P (JStr s)) ->
  (forall items, Forall P items -> P (JList items)) ->
  (forall items, Forall (fun kv => P (snd kv)) items -> P (JDict items)) ->
  forall j, P j.
Proof.
  intros HNull HBool HInt HStr HList HDict.
  fix IH 1. intros [ |b|n|s|items|items].
  - exact HNull.
  - apply HBool.
  - apply HInt.
  - apply HStr.
  - apply HList.
    revert items. fix IHl 1. intros [|x rest].
    + constructor.
    + constructor; [apply IH | apply IHl].
  - apply HDict.
    revert items. fix IHl 1. intros [|[k v] rest].
    + constructor.
    + constructor; [apply IH | apply IHl].
Qed.

(** With its default [ensure_ascii], [json.dumps] writes printable ASCII
    only. *)
Lemma json_dumps_printable (j : json) : all_chars printable (json_dumps j) = true.
Proof.
  induction j as [ |b|n|s|items IH|items IH] using json_nested_ind.
  - reflexivity.
  - destruct b; reflexivity.
  - apply string_of_int_printable.
  - apply quoted_printable.
  - cbn [json_dumps]. rewrite !all_chars_app. cbn [all_chars].
    rewrite andb_true_r.
    induction IH as [|x rest Hx _ IHrest]; [reflexivity|].
    rewrite all_chars_app, Hx. destruct rest; [reflexivity|].
    rewrite all_chars_app. exact IHrest.
  - cbn [json_dumps]. rewrite !all_chars_app. cbn [all_chars].
    rewrite andb_true_r.
    induction IH as [|[k v] rest Hx _ IHrest]; [reflexivity|].
    cbn [snd] in Hx.
    rewrite !all_chars_app, quoted_printable, Hx. destruct rest; [reflexivity|].
    rewrite all_chars_app. exact IHrest.
Qed.

Lemma is_substring_trans (a b c : string) :
  is_substring a b = true -> is_substring b c = true -> is_substring a c = true.
Proof.
  intros Hab Hbc. apply is_substring_spec in Hab, Hbc.
  destruct Hab as (x & y & ->). destruct Hbc as (u & v & ->).
  apply is_substring_spec. exists (u ++ x), (y ++ v).
  now rewrite !append_assoc.
Qed.

Lemma is_substring_quoted_plain (s : string) :
  all_chars plain s = true -> is_substring s (quoted s) = true.
Proof.
  intros H. unfold quoted. rewrite (escape_string_plain s H).
  apply (is_substring_app s (String dquote "") (String dquote "")).
Qed.

(** ** Evaluating the script *)

Ltac enter_main :=
  cbv beta delta [main bind getpass time_sleep sys_exit print ret
                  boot result events exit_status];
  cbn [keyboard remote seen fst snd app].

Ltac enter_op :=
  cbv beta delta [invoke create_source_connection_profile
    create_destination_connection_profile create_stream start_stream
    def bind requests_request print ret message_of probe request_of
    accepted sending] in *;
  cbn [fst snd keyboard remote seen hd sent printed app] in *.

Ltac show_message :=
  cbv beta delta [message_of probe invoke
    create_source_connection_profile create_destination_connection_profile
    create_stream start_stream def bind requests_request print ret resource];
  cbn [fst snd keyboard remote seen hd printed app].

Section Facts.

Variables PROJECT_ID GCP_LOCATION : string.
Variable source_profile_config : SourceProfileConfig.
Variable destination_profile_config : DestinationProfileConfig.
Variable stream_config : StreamConfig.

Local Abbreviation main :=
  (main PROJECT_ID GCP_LOCATION source_profile_config
        destination_profile_config stream_config).
Local Abbreviation invoke :=
  (invoke PROJECT_ID GCP_LOCATION source_profile_config
          destination_profile_config stream_config).
Local Abbreviation request_of :=
  (request_of PROJECT_ID GCP_LOCATION source_profile_config
              destination_profile_config stream_config).
Local Abbreviation message_of :=
  (message_of PROJECT_ID GCP_LOCATION source_profile_config
              destination_profile_config stream_config).
Local Abbreviation resource :=
  (resource source_profile_config destination_profile_config stream_config).

(** Every operation has the same shape: one request, then a flag and one
    printed line that depend on the response only. *)
Lemma invoke_run (o : Op) (db_password token : string) (w : World) :
  invoke o db_password token w =
  match remote w (seen w) (request_of o db_password token) with
  | None =>
      (Raised RequestException, sending w (request_of o db_password token),
       [Call o; Send (request_of o db_password token)])
  | Some resp =>
      (Normal (accepted o (status_code resp)),
       sending w (request_of o db_password token),
       [Call o; Send (request_of o db_password token); Recv resp;
        Print (message_of o resp); Return o (accepted o (status_code resp))])
  end.
Proof.
  destruct o;
    (destruct (remote w (seen w) (request_of _ db_password token))
       as [resp|] eqn:E;
     enter_op; rewrite E;
     repeat match goal with
            | |- context [?x =? ?y] => destruct (x =? y)
            end;
     reflexivity).
Qed.

Lemma source_run (db_password token : string) (w : World) :
  create_source_connection_profile source_profile_config db_password token
                                   PROJECT_ID GCP_LOCATION w =
  match remote w (seen w) (request_of OpSource db_password token) with
  | None =>
      (Raised RequestException, sending w (request_of OpSource db_password token),
       [Call OpSource; Send (request_of OpSource db_password token)])
  | Some resp =>
      (Normal (accepted OpSource (status_code resp)),
       sending w (request_of OpSource db_password token),
       [Call OpSource; Send (request_of OpSource db_password token); Recv resp;
        Print (message_of OpSource resp);
        Return OpSource (accepted OpSource (status_code resp))])
  end.
Proof. exact (invoke_run OpSource db_password token w). Qed.

Lemma destination_run (token : string) (w : World) :
  create_destination_connection_profile PROJECT_ID GCP_LOCATION
                                        destination_profile_config token w =
  match remote w (seen w) (request_of OpDest "" token) with
  | None =>
      (Raised RequestException, sending w (request_of OpDest "" token),
       [Call OpDest; Send (request_of OpDest "" token)])
  | Some resp =>
      (Normal (accepted OpDest (status_code resp)),
       sending w (request_of OpDest "" token),
       [Call OpDest; Send (request_of OpDest "" token); Recv resp;
        Print (message_of OpDest resp);
        Return OpDest (accepted OpDest (status_code resp))])
  end.
Proof. exact (invoke_run OpDest "" token w). Qed.

Lemma stream_run (token : string) (w : World) :
  create_stream source_profile_config destination_profile_config
                PROJECT_ID GCP_LOCATION stream_config token w =
  match remote w (seen w) (request_of OpStream "" token) with
  | None =>
      (Raised RequestException, sending w (request_of OpStream "" token),
       [Call OpStream; Send (request_of OpStream "" token)])
  | Some resp =>
      (Normal (accepted OpStream (status_code resp)),
       sending w (request_of OpStream "" token),
       [Call OpStream; Send (request_of OpStream "" token); Recv resp;
        Print (message_of OpStream resp);
        Return OpStream (accepted OpStream (status_code resp))])
  end.
Proof. exact (invoke_run OpStream "" token w). Qed.

Lemma start_run (token : string) (w : World) :
  start_stream PROJECT_ID GCP_LOCATION token stream_config w =
  match remote w (seen w) (request_of OpStart "" token) with
  | None =>
      (Raised RequestException, sending w (request_of OpStart "" token),
       [Call OpStart; Send (request_of OpStart "" token)])
  | Some resp =>
      (Normal (accepted OpStart (status_code resp)),
       sending w (request_of OpStart "" token),
       [Call OpStart; Send (request_of OpStart "" token); Recv resp;
        Print (message_of OpStart resp);
        Return OpStart (accepted OpStart (status_code resp))])
  end.
Proof. exact (invoke_run OpStart "" token w). Qed.

Ltac step :=
  first [rewrite source_run | rewrite destination_run
        | rewrite stream_run | rewrite start_run];
  cbn [keyboard remote seen sending];
  match goal with
  | |- context [match ?f ?s ?r with Some _ => _ | None => _ end] =>
      destruct (f s r) as [?resp|] eqn:?
  end;
  [ match goal with
    | |- context [accepted ?o ?c] => destruct (accepted o c) eqn:?
    end | ];
  cbn [keyboard remote seen fst snd app].

Ltac run_main := enter_main; repeat step.


(** ** One operation *)

(** The response an operation received decides its flag and the line it
    prints. *)
Lemma invoke_received (o : Op) (db_password token : string) (w : World)
    (resp : Response) :
  In (Recv resp) (events (invoke o db_password token w)) ->
  result (invoke o db_password token w) = Normal (accepted o (status_code resp)) /\
  printed (events (invoke o db_password token w)) = [message_of o resp].
Proof.
  rewrite invoke_run.
  destruct (remote w (seen w) _) as [r|]; cbn [events result fst snd In].
  - intros [H|[H|[H|[H|[H|[]]]]]]; try discriminate H.
    injection H as ->. split; reflexivity.
  - intros [H|[H|[]]]; discriminate H.
Qed.

(** C2, as amended: for each of the four operations and every response whose
    status code is exactly 200, the operation returns [true] and prints one
    confirmation line that names the resource (the source profile name, the
    destination profile id, the stream name). *)
Theorem status_200_confirms (o : Op) (db_password token : string) (w : World)
    (resp : Response) :
  In (Recv resp) (events (invoke o db_password token w)) ->
  status_code resp = 200 ->
  result (invoke o db_password token w) = Normal true /\
  exists line,
    printed (events (invoke o db_password token w)) = [line] /\
    is_substring (resource o) line = true.
Proof.
  intros Hin Hcode. destruct (invoke_received _ _ _ _ _ Hin) as [-> ->].
  rewrite Hcode. split; [destruct o; reflexivity|].
  eexists; split; [reflexivity|].
  destruct o; show_message; rewrite Hcode; change (200 =? 200) with true;
    cbn [fst snd hd printed app]; apply is_substring_app.
Qed.

(** C4: on a 409 response the three creation operations return [true] and
    print a confirmation naming the resource; [start_stream] has no such
    branch and returns [false]. *)
Theorem status_409_conflict (o : Op) (db_password token : string) (w : World)
    (resp : Response) :
  In (Recv resp) (events (invoke o db_password token w)) ->
  status_code resp = 409 ->
  (o <> OpStart ->
   result (invoke o db_password token w) = Normal true /\
   exists line,
     printed (events (invoke o db_password token w)) = [line] /\
     is_substring (resource o) line = true) /\
  (o = OpStart -> result (invoke o db_password token w) = Normal false).
Proof.
  intros Hin Hcode. destruct (invoke_received _ _ _ _ _ Hin) as [-> ->].
  rewrite Hcode. split.
  - intros Hno. split; [destruct o; try reflexivity; now elim Hno|].
    eexists; split; [reflexivity|].
    destruct o; try (now elim Hno); show_message; rewrite Hcode;
      change (409 =? 200) with false; change (409 =? 409) with true;
      cbn [fst snd hd printed app]; apply is_substring_app.
  - intros ->. reflexivity.
Qed.

(** C5: a response whose status code is outside the accepted set (200 and
    409 for the creation operations, 200 alone for [start_stream]) makes the
    operation return [false], and the one line it prints contains the
    response body. *)
Theorem other_status_fails (o : Op) (db_password token : string) (w : World)
    (resp : Response) :
  In (Recv resp) (events (invoke o db_password token w)) ->
  accepted o (status_code resp) = false ->
  result (invoke o db_password token w) = Normal false /\
  exists line,
    printed (events (invoke o db_password token w)) = [line] /\
    is_substring (text resp) line = true.
Proof.
  intros Hin Hcode. destruct (invoke_received _ _ _ _ _ Hin) as [-> ->].
  rewrite Hcode. split; [reflexivity|].
  eexists; split; [reflexivity|].
  destruct o; cbn [accepted] in Hcode;
    try (apply orb_false_iff in Hcode; destruct Hcode as [H200 H409]);
    show_message;
    repeat match goal with H : (_ =? _) = false |- _ => rewrite H; clear H end;
    cbn [fst snd hd printed app]; apply is_substring_end.
Qed.

(** C7: whatever the world, [start_stream] first sends one request, and
    sends no other: a PATCH to
    [.../projects/{project}/locations/{location}/streams/{id}?updateMask=state]
    whose body is the JSON object with the single member
    [state = "RUNNING"]. *)
Theorem start_stream_request (project location token : string)
    (s_config : StreamConfig) (w : World) :
  exists req rest,
    events (start_stream project location token s_config w) =
      Call OpStart :: Send req :: rest /\
    sent rest = [] /\
    verb req = "PATCH" /\
    url req = "https://datastream.googleapis.com/v1" ++
              "/projects/" ++ project ++ "/locations/" ++ location ++
              "/streams/" ++ stream_id s_config ++ "?updateMask=state" /\
    data req = json_dumps (JDict [("state", JStr "RUNNING")]) /\
    data req = "{" ++ quoted "state" ++ ": " ++ quoted "RUNNING" ++ "}".
Proof.
  cbv beta delta [start_stream def bind requests_request print ret events].
  cbn [fst snd keyboard remote seen].
  destruct (remote w (seen w) _) as [resp|]; cbn [snd app].
  - destruct (status_code resp =? 200); cbn [snd app];
      (do 2 eexists); (split; [reflexivity|]); cbn [sent verb url data];
      repeat split; reflexivity.
  - do 2 eexists; (split; [reflexivity|]); cbn [sent verb url data];
      repeat split; reflexivity.
Qed.

(** ** The sequencer *)

(** C3: in every run, once an operation has returned [false] no operation
    that comes later in the sequence is entered. *)
Theorem short_circuit (typed : list string)
    (api : list Request -> Request -> option Response) (o o' : Op) :
  In (o, false) (returned (events (main (boot typed api)))) ->
  (position o < position o')%nat ->
  ~ In o' (invoked (events (main (boot typed api)))).
Proof.
  destruct typed as [|tok [|pw rest]]; run_main;
    cbn [returned invoked In]; intros Hret Hpos Hcall;
    destruct o, o'; cbn [position] in Hpos; try lia;
    intuition congruence.
Qed.

(** The exit status by the flags returned: a failed [create_stream] leaves
    [main] through the missing [else] and the process ends with status 0;
    each of the other three failures ends it with status 1. *)
Lemma exit_status_by_flags (typed : list string)
    (api : list Request -> Request -> option Response) :
  (In (OpStream, false) (returned (events (main (boot typed api)))) ->
   exit_status (result (main (boot typed api))) = 0) /\
  (forall o, o <> OpStream ->
     In (o, false) (returned (events (main (boot typed api)))) ->
     exit_status (result (main (boot typed api))) = 1) /\
  (returned (events (main (boot typed api))) =
     [(OpSource, true); (OpDest, true); (OpStream, true); (OpStart, true)] ->
   exit_status (result (main (boot typed api))) = 0).
Proof.
  destruct typed as [|tok [|pw rest]]; run_main; cbn [returned In];
    (split; [|split]); try reflexivity; try discriminate;
    try (intros o Ho); intuition congruence.
Qed.

(** C6: in every run where [create_stream] returns [true], the events read
    ... response of [create_stream], its printed line, its return, a sleep of
    60, the entry of [start_stream], its request ...; [start_stream] is not
    entered earlier and nothing is sent later. *)
Theorem wait_before_start (typed : list string)
    (api : list Request -> Request -> option Response) :
  In (OpStream, true) (returned (events (main (boot typed api)))) ->
  exists pre req3 resp line req4 post,
    events (main (boot typed api)) =
      (pre ++ [Call OpStream; Send req3; Recv resp; Print line;
               Return OpStream true; Sleep 60; Call OpStart; Send req4]
           ++ post)%list /\
    ~ In OpStart (invoked pre) /\
    sent post = [].
Proof.
  destruct typed as [|tok [|pw rest]]; run_main; cbn [returned In];
    intros Hret;
    try (exfalso; intuition congruence);
    match goal with
    | |- exists pre _ _ _ _ post, ?evs = _ /\ _ =>
        exists (firstn 12 evs); do 4 eexists; exists (skipn 20 evs)
    end;
    cbn [firstn skipn app invoked sent In];
    (split; [reflexivity|]); (split; [intuition discriminate | reflexivity]).
Qed.

(** C8: the operations hand [main] a boolean and nothing else (their type is
    [M bool]), and no request depends on an earlier response: in every run,
    the request an operation sends is the one it writes from the
    configuration and what was typed.  For [create_stream] the URL and the
    body come from the configuration alone, the two profile references
    being the project, the location and the configured profile
    identifiers. *)
Theorem requests_from_configuration (typed : list string)
    (api : list Request -> Request -> option Response) (o : Op) (req : Request) :
  In req (sent_by o false (events (main (boot typed api)))) ->
  req = request_of o (nth 1 typed "") ("Bearer " ++ nth 0 typed "") /\
  (o = OpStream ->
   url req = "https://datastream.clients6.google.com/v1alpha1/projects/" ++
             PROJECT_ID ++ "/locations/" ++ GCP_LOCATION ++
             "/streams?streamId=" ++ stream_id stream_config /\
   data req = json_dumps (JDict [
       ("displayName", JStr (stream_name stream_config));
       ("sourceConfig", JDict [
           ("sourceConnectionProfileName",
            JStr ("projects/" ++ PROJECT_ID ++ "/locations/" ++ GCP_LOCATION ++
                  "/connectionProfiles/" ++
                  source_profile_id source_profile_config));
           ("mysqlSourceConfig", JDict [
               ("allowlist", JDict [("mysqlDatabases", JList [])]);
               ("rejectlist", JDict [("mysqlDatabases", JList [])])])]);
       ("destinationConfig", JDict [
           ("destinationConnectionProfileName",
            JStr ("projects/" ++ PROJECT_ID ++ "/locations/" ++ GCP_LOCATION ++
                  "/connectionProfiles/" ++
                  destination_profile_id destination_profile_config));
           ("gcsDestinationConfig", JDict [
               ("path", JStr "");
               ("avroFileFormat", JDict [])])]);
       ("backfillAll", JDict [("mysqlExcludedObjects", JDict [])])])).
Proof.
  destruct typed as [|tok [|pw rest]]; run_main; destruct o;
    cbn [sent_by Op_eqb In nth]; intros Hin; try contradiction;
    destruct Hin as [<-|[]];
    (split; [reflexivity | intros Ho; try discriminate Ho; split; reflexivity]).
Qed.

(** With two lines typed the source-profile operation is entered. *)
Lemma source_entered (tok pw : string) (rest : list string)
    (api : list Request -> Request -> option Response) :
  In OpSource (invoked (events (main (boot (tok :: pw :: rest) api)))).
Proof. run_main; cbn [invoked In]; left; reflexivity. Qed.

(** An operation that is entered sends its request, once. *)
Lemma entered_operation_sends (tok pw : string) (rest : list string)
    (api : list Request -> Request -> option Response) (o : Op) :
  In o (invoked (events (main (boot (tok :: pw :: rest) api)))) ->
  sent_by o false (events (main (boot (tok :: pw :: rest) api))) =
    [request_of o pw ("Bearer " ++ tok)].
Proof.
  run_main; destruct o; cbn [invoked sent_by Op_eqb In]; intros H;
    try reflexivity; exfalso; intuition discriminate.
Qed.

(** C10: in every run, each request sent carries as [Authorization] header
    the string ["Bearer "] followed by the token typed at the first prompt,
    never the typed token itself; and once the password is typed too, the
    source-profile operation is entered and every operation entered sends
    its one request, so the header is on all the requests of the run, four
    when the run reaches the start. *)
Theorem bearer_header (token : string) (rest : list string)
    (api : list Request -> Request -> option Response) :
  Forall (fun req =>
            header "Authorization" (headers req) = Some ("Bearer " ++ token) /\
            header "Authorization" (headers req) <> Some token)
         (sent (events (main (boot (token :: rest) api)))) /\
  (rest <> [] ->
   In OpSource (invoked (events (main (boot (token :: rest) api)))) /\
   forall o, In o (invoked (events (main (boot (token :: rest) api)))) ->
     exists req,
       sent_by o false (events (main (boot (token :: rest) api))) = [req] /\
       header "Authorization" (headers req) = Some ("Bearer " ++ token)).
Proof.
  assert (Hreq : forall o pw,
            header "Authorization"
                   (headers (request_of o pw ("Bearer " ++ token))) =
              Some ("Bearer " ++ token) /\
            header "Authorization"
                   (headers (request_of o pw ("Bearer " ++ token))) <>
              Some token).
  { intros o pw.
    assert (E : header "Authorization"
                  (headers (request_of o pw ("Bearer " ++ token))) =
                Some ("Bearer " ++ token)) by (destruct o; reflexivity).
    split; [exact E|]. rewrite E. intros H. injection H as H.
    exact (bearer_differs token H). }
  split.
  - destruct rest as [|pw rest]; run_main; cbn [sent];
      repeat (apply Forall_cons; [apply Hreq|]); apply Forall_nil.
  - intros Hrest. destruct rest as [|pw rest]; [now elim Hrest|].
    split; [apply source_entered|]. intros o Ho.
    exists (request_of o pw ("Bearer " ++ token)).
    split; [exact (entered_operation_sends _ _ _ _ _ Ho) | apply Hreq].
Qed.

(** ** Where the secrets go *)

Ltac step_canned :=
  rewrite ?source_run, ?destination_run, ?stream_run, ?start_run;
  cbn [keyboard remote seen sending];
  cbv beta delta [canned];
  cbn [List.length app nth_error];
  repeat match goal with
         | H : accepted _ _ = _ |- _ => rewrite H
         end;
  cbn [keyboard remote seen fst snd app].

(** A run is determined by what was typed and the responses received. *)
Lemma replay (typed : list string)
    (api : list Request -> Request -> option Response)
    (answers : list Response) :
  received (events (main (boot typed api))) = answers ->
  events (main (boot typed api)) = events (main (boot typed (canned answers))).
Proof.
  remember (events (main (boot typed (canned answers)))) as played eqn:P.
  destruct typed as [|tok [|pw rest]]; run_main; cbn [received];
    intros <-; subst played; enter_main; do 4 step_canned; reflexivity.
Qed.

(** The token is nowhere in a request but in its [Authorization] value. *)
Lemma without_authorization_request_of (o : Op) (pw tok1 tok2 : string) :
  without_authorization (request_of o pw tok1) =
  without_authorization (request_of o pw tok2).
Proof. destruct o; reflexivity. Qed.

Ltac step_both :=
  rewrite ?source_run, ?destination_run, ?stream_run, ?start_run;
  cbn [keyboard remote seen sending];
  cbv beta delta [canned];
  cbn [List.length app nth_error];
  try match goal with
      | |- context [accepted ?o ?c] => destruct (accepted o c) eqn:?
      end;
  cbn [keyboard remote seen fst snd app].

Lemma canned_runs_agree (answers : list Response)
    (tok1 pw1 tok2 pw2 : string) (rest1 rest2 : list string) :
  console (events (main (boot (tok1 :: pw1 :: rest1) (canned answers)))) =
  console (events (main (boot (tok2 :: pw2 :: rest2) (canned answers)))) /\
  (pw1 = pw2 ->
   map without_authorization
       (sent (events (main (boot (tok1 :: pw1 :: rest1) (canned answers))))) =
   map without_authorization
       (sent (events (main (boot (tok2 :: pw2 :: rest2) (canned answers)))))) /\
  (tok1 = tok2 ->
   without_source_body false
       (events (main (boot (tok1 :: pw1 :: rest1) (canned answers)))) =
   without_source_body false
       (events (main (boot (tok2 :: pw2 :: rest2) (canned answers))))).
Proof.
  destruct answers as [|r1 [|r2 [|r3 [|r4 more]]]];
    enter_main; do 4 step_both;
    cbn [console sent map without_source_body Op_eqb];
    (split; [reflexivity|]);
    (split;
     [ intros <-;
       rewrite ?(without_authorization_request_of OpSource pw1
                   ("Bearer " ++ tok1) ("Bearer " ++ tok2)),
               ?(without_authorization_request_of OpDest ""
                   ("Bearer " ++ tok1) ("Bearer " ++ tok2)),
               ?(without_authorization_request_of OpStream ""
                   ("Bearer " ++ tok1) ("Bearer " ++ tok2)),
               ?(without_authorization_request_of OpStart ""
                   ("Bearer " ++ tok1) ("Bearer " ++ tok2));
       reflexivity
     | intros <-; reflexivity ]).
Qed.

(** C9, as amended: the script never hands the token or the password to the
    console.  What the operator sees is fixed text, configured names, the
    bodies of the responses and, when the script dies on an exception, the
    interpreter's traceback with the library's message.  So two runs that
    receive the same responses and end on the same traceback show the same
    terminal, whatever was typed.  The token goes nowhere but into the
    [Authorization] value: with the same password, the requests of the two
    runs are the same once that value is blanked.  The password goes
    nowhere but into the body of the source-profile request: with the same
    token, the requests are the same once that body is blanked. *)
Theorem secrets_only_through_responses
    (tok1 pw1 tok2 pw2 : string) (rest1 rest2 : list string)
    (api1 api2 : list Request -> Request -> option Response)
    (describe : list Request -> Request -> string) :
  received (events (main (boot (tok1 :: pw1 :: rest1) api1))) =
  received (events (main (boot (tok2 :: pw2 :: rest2) api2))) ->
  traceback describe (main (boot (tok1 :: pw1 :: rest1) api1)) =
  traceback describe (main (boot (tok2 :: pw2 :: rest2) api2)) ->
  terminal describe (main (boot (tok1 :: pw1 :: rest1) api1)) =
  terminal describe (main (boot (tok2 :: pw2 :: rest2) api2)) /\
  (pw1 = pw2 ->
   map without_authorization
       (sent (events (main (boot (tok1 :: pw1 :: rest1) api1)))) =
   map without_authorization
       (sent (events (main (boot (tok2 :: pw2 :: rest2) api2))))) /\
  (tok1 = tok2 ->
   without_source_body false (events (main (boot (tok1 :: pw1 :: rest1) api1))) =
   without_source_body false (events (main (boot (tok2 :: pw2 :: rest2) api2)))).
Proof.
  intros Hsame Htrace. unfold terminal. rewrite Htrace. clear Htrace.
  remember (received (events (main (boot (tok2 :: pw2 :: rest2) api2))))
    as answers eqn:A.
  rewrite (replay _ api1 answers Hsame), (replay _ api2 answers (eq_sym A)).
  destruct (canned_runs_agree answers tok1 pw1 tok2 pw2 rest1 rest2)
    as (Hconsole & Htoken & Hpassword).
  rewrite Hconsole. repeat split; assumption.
Qed.

(** ** More on the sequencer *)

(** X1: the operations are entered in the order source profile, destination
    profile, stream, start, each at most once: the operations entered in a
    run are an initial segment of that sequence. *)
Theorem operations_in_order (typed : list string)
    (api : list Request -> Request -> option Response) :
  exists n, invoked (events (main (boot typed api))) = firstn n sequence.
Proof.
  destruct typed as [|tok [|pw rest]]; run_main; cbn [invoked];
    first [ now exists 0%nat | now exists 1%nat | now exists 2%nat
          | now exists 3%nat | now exists 4%nat ].
Qed.

(** X2: when an operation returns [True], the next operation of the sequence is
    entered. *)
Theorem success_continues (typed : list string)
    (api : list Request -> Request -> option Response) (o o' : Op) :
  In (o, true) (returned (events (main (boot typed api)))) ->
  position o' = S (position o) ->
  In o' (invoked (events (main (boot typed api)))).
Proof.
  destruct typed as [|tok [|pw rest]]; run_main;
    cbn [returned invoked In]; intros Hret Hpos;
    destruct o, o'; cbn [position] in Hpos; try discriminate Hpos;
    intuition congruence.
Qed.

(** X3: ["Process Completed!"] is the last thing a run does exactly when
    [start_stream] returned [True]; then all four operations returned
    [True] and [main] returns normally. *)
Theorem completion (typed : list string)
    (api : list Request -> Request -> option Response) :
  (In (OpStart, true) (returned (events (main (boot typed api)))) <->
   last (events (main (boot typed api))) (Sleep 0) = Print "Process Completed!") /\
  (In (OpStart, true) (returned (events (main (boot typed api)))) ->
   returned (events (main (boot typed api))) =
     [(OpSource, true); (OpDest, true); (OpStream, true); (OpStart, true)] /\
   result (main (boot typed api)) = Normal tt).
Proof.
  destruct typed as [|tok [|pw rest]]; run_main; cbn [returned In last];
    (split; [split|]); intros H; try discriminate H;
    try (split; reflexivity); try reflexivity; try tauto;
    intuition congruence.
Qed.

(** X4: a [False] from the source profile, the destination profile or the start
    ends the run at once through [sys.exit(1)]: the return of the flag is the
    last event. *)
Theorem failure_exits_1 (typed : list string)
    (api : list Request -> Request -> option Response) (o : Op) :
  In (o, false) (returned (events (main (boot typed api)))) ->
  o <> OpStream ->
  result (main (boot typed api)) = SystemExit 1 /\
  last (events (main (boot typed api))) (Sleep 0) = Return o false.
Proof.
  destruct typed as [|tok [|pw rest]]; run_main; cbn [returned In last];
    intros Hret Hno; destruct o; try (now elim Hno);
    try (split; reflexivity); exfalso; intuition congruence.
Qed.

(** X5: an operation whose request gets no response raises: it sends its
    request, prints nothing and returns no flag. *)
Theorem no_response_aborts_operation (o : Op) (db_password token : string)
    (w : World) :
  received (events (invoke o db_password token w)) = [] ->
  result (invoke o db_password token w) = Raised RequestException /\
  events (invoke o db_password token w) =
    [Call o; Send (request_of o db_password token)].
Proof.
  rewrite invoke_run.
  destruct (remote w (seen w) _) as [r|]; cbn [events result fst snd received].
  - discriminate.
  - intros _. split; reflexivity.
Qed.

(** X6: a run that ends on the transport exception ends with status 1 right
    after a request: the operation that sent it was entered and never
    returned. *)
Theorem transport_failure_aborts_run (typed : list string)
    (api : list Request -> Request -> option Response) :
  result (main (boot typed api)) = Raised RequestException ->
  exit_status (result (main (boot typed api))) = 1 /\
  List.length (invoked (events (main (boot typed api)))) =
    S (List.length (returned (events (main (boot typed api))))) /\
  exists req, last (events (main (boot typed api))) (Sleep 0) = Send req.
Proof.
  destruct typed as [|tok [|pw rest]]; run_main;
    cbn [returned invoked last List.length]; intros H; try discriminate H;
    (split; [reflexivity|]); (split; [reflexivity|]); eexists; reflexivity.
Qed.

(** X7: with fewer than two lines to read, [getpass] raises [EOFError]: nothing
    is sent, nothing is printed, the status is 1. *)
Theorem missing_input (typed : list string)
    (api : list Request -> Request -> option Response) :
  (List.length typed < 2)%nat ->
  result (main (boot typed api)) = Raised EOFError /\
  sent (events (main (boot typed api))) = [] /\
  printed (events (main (boot typed api))) = [] /\
  exit_status (result (main (boot typed api))) = 1.
Proof.
  destruct typed as [|tok [|pw rest]]; cbn [List.length]; intros H; try lia;
    enter_main; repeat split.
Qed.

(** X8: with two lines typed, the run shows the two prompts, token first, before
    it sends the source-profile request, and reads exactly those two lines:
    what was typed after them is still on the keyboard at the end. *)
Theorem reads_two_lines (tok pw : string) (rest : list string)
    (api : list Request -> Request -> option Response) :
  keyboard (world_of (main (boot (tok :: pw :: rest) api))) = rest /\
  exists more,
    events (main (boot (tok :: pw :: rest) api)) =
      Prompt ("Enter auth_token, you can generate auth token by " ++
              "running gcloud config set project <project_id> && " ++
              "gcloud auth print-access-token: ") ::
      Prompt "Enter Source DB Password: " ::
      Call OpSource ::
      Send (request_of OpSource pw ("Bearer " ++ tok)) :: more.
Proof.
  cbv beta delta [world_of]; run_main; cbn [keyboard fst snd];
    (split; [reflexivity|]); eexists; reflexivity.
Qed.

(** X9: at most four requests are sent; every response is answered by exactly
    one returned flag and one printed line, and the only other printed line
    is the final ["Process Completed!"]. *)
Theorem one_line_per_response (typed : list string)
    (api : list Request -> Request -> option Response) :
  (List.length (sent (events (main (boot typed api)))) <= 4)%nat /\
  List.length (returned (events (main (boot typed api)))) =
    List.length (received (events (main (boot typed api)))) /\
  (List.length (printed (events (main (boot typed api)))) =
     List.length (received (events (main (boot typed api)))) \/
   printed (events (main (boot typed api))) =
     (firstn 4 (printed (events (main (boot typed api)))) ++
      ["Process Completed!"])%list /\
   List.length (received (events (main (boot typed api)))) = 4%nat).
Proof.
  destruct typed as [|tok [|pw rest]]; run_main;
    cbn [sent returned received printed List.length firstn app];
    (split; [lia|]); (split; [reflexivity|]);
    first [ left; reflexivity | right; split; reflexivity ].
Qed.

(** X10: the script sleeps at most once, for 60, and only when [create_stream]
    returned [True]. *)
Theorem sleeps_only_after_stream (typed : list string)
    (api : list Request -> Request -> option Response) :
  (sleeps (events (main (boot typed api))) = [60] /\
   In (OpStream, true) (returned (events (main (boot typed api))))) \/
  (sleeps (events (main (boot typed api))) = [] /\
   ~ In (OpStream, true) (returned (events (main (boot typed api))))).
Proof.
  destruct typed as [|tok [|pw rest]]; run_main; cbn [sleeps returned In];
    first [ left; split; [reflexivity | tauto]
          | right; split; [reflexivity | intuition congruence] ].
Qed.

(** X11: on an accepted status the response body is not looked at: two
    invocations of an operation that receive the same accepted status print
    the same line, whatever the bodies. *)
Theorem success_ignores_body (o : Op) (pw1 tok1 pw2 tok2 : string)
    (w1 w2 : World) (r1 r2 : Response) :
  In (Recv r1) (events (invoke o pw1 tok1 w1)) ->
  In (Recv r2) (events (invoke o pw2 tok2 w2)) ->
  status_code r1 = status_code r2 ->
  accepted o (status_code r1) = true ->
  printed (events (invoke o pw1 tok1 w1)) = printed (events (invoke o pw2 tok2 w2)).
Proof.
  intros H1 H2 Hcode Hacc.
  destruct (invoke_received _ _ _ _ _ H1) as [_ ->].
  destruct (invoke_received _ _ _ _ _ H2) as [_ ->].
  f_equal. destruct o; cbn [accepted] in Hacc; show_message;
    rewrite <- Hcode;
    destruct (status_code r1 =? 200); cbn [fst snd hd printed app];
    try reflexivity;
    destruct (status_code r1 =? 409); cbn [fst snd hd printed app];
    try reflexivity; discriminate Hacc.
Qed.

(** X12: resources that exist already do not stop the run: when each of the
    first three responses has status 200 or 409, all four operations are
    entered. *)
Theorem accepted_creations_reach_start (typed : list string)
    (api : list Request -> Request -> option Response) (r1 r2 r3 : Response) :
  firstn 3 (received (events (main (boot typed api)))) = [r1; r2; r3] ->
  Forall (fun r => status_code r = 200 \/ status_code r = 409) [r1; r2; r3] ->
  invoked (events (main (boot typed api))) = sequence.
Proof.
  intros Hrecv Hall.
  assert (Hacc : forall o r, o <> OpStart ->
            status_code r = 200 \/ status_code r = 409 ->
            accepted o (status_code r) = true)
    by (intros o r Ho [-> | ->]; destruct o; try reflexivity; now elim Ho).
  inversion Hall as [|? ? H1 Hall']; subst.
  inversion Hall' as [|? ? H2 Hall'']; subst.
  inversion Hall'' as [|? ? H3 _]; subst.
  apply (Hacc OpSource) in H1; [|discriminate].
  apply (Hacc OpDest) in H2; [|discriminate].
  apply (Hacc OpStream) in H3; [|discriminate].
  revert Hrecv.
  destruct typed as [|tok [|pw rest]]; run_main;
    cbn [received firstn invoked]; intros Hrecv; try discriminate Hrecv;
    try reflexivity; injection Hrecv as <- <- <- || injection Hrecv as <- <-
    || injection Hrecv as <-; congruence.
Qed.

(** ** The requests of a run *)

Ltac find_member :=
  repeat first [ apply is_substring_head3 | apply is_substring_app_r ].

Lemma stream_body_references (db_password token : string) :
  is_substring
    (quoted "sourceConnectionProfileName" ++ ": " ++
     quoted (parent PROJECT_ID GCP_LOCATION ++ "/connectionProfiles/" ++
             source_profile_id source_profile_config))
    (data (request_of OpStream db_password token)) = true /\
  is_substring
    (quoted "destinationConnectionProfileName" ++ ": " ++
     quoted (parent PROJECT_ID GCP_LOCATION ++ "/connectionProfiles/" ++
             destination_profile_id destination_profile_config))
    (data (request_of OpStream db_password token)) = true.
Proof.
  assert (Hpath : forall id,
            parent PROJECT_ID GCP_LOCATION ++ "/connectionProfiles/" ++ id =
            "projects/" ++ PROJECT_ID ++ "/locations/" ++ GCP_LOCATION ++ "/" ++
            "connectionProfiles/" ++ id)
    by (intros id; unfold parent; rewrite !append_assoc; reflexivity).
  rewrite !Hpath. enter_op. cbn [data json_dumps]. rewrite !append_assoc.
  split; find_member.
Qed.

Lemma source_body_password (db_password token : string) :
  is_substring (quoted "password" ++ ": " ++ quoted db_password)
               (data (request_of OpSource db_password token)) = true.
Proof.
  enter_op. cbn [data json_dumps]. rewrite !append_assoc.
  find_member.
Qed.

(** X13: in a run that enters all four operations, exactly four requests
    are sent, and they name one parent and the same identifiers: the stream
    body refers to the two profiles by the names under which the two profile
    requests create them, and the start request addresses the stream that
    the stream request creates.  The creations are POSTs, the start a
    PATCH; the source profile and the start go to the [v1] endpoint, the
    destination profile and the stream to the [v1alpha1] one. *)
Theorem request_wiring (typed : list string)
    (api : list Request -> Request -> option Response) :
  invoked (events (main (boot typed api))) = sequence ->
  exists r1 r2 r3 r4,
    sent (events (main (boot typed api))) = [r1; r2; r3; r4] /\
    (verb r1 = "POST" /\
     url r1 = "https://datastream.googleapis.com/v1/" ++
              parent PROJECT_ID GCP_LOCATION ++
              "/connectionProfiles?connectionProfileId=" ++
              source_profile_id source_profile_config) /\
    (verb r2 = "POST" /\
     url r2 = "https://datastream.clients6.google.com/v1alpha1/" ++
              parent PROJECT_ID GCP_LOCATION ++
              "/connectionProfiles?connectionProfileId=" ++
              destination_profile_id destination_profile_config) /\
    (verb r3 = "POST" /\
     url r3 = "https://datastream.clients6.google.com/v1alpha1/" ++
              parent PROJECT_ID GCP_LOCATION ++
              "/streams?streamId=" ++ stream_id stream_config /\
     is_substring
       (quoted "sourceConnectionProfileName" ++ ": " ++
        quoted (parent PROJECT_ID GCP_LOCATION ++ "/connectionProfiles/" ++
                source_profile_id source_profile_config))
       (data r3) = true /\
     is_substring
       (quoted "destinationConnectionProfileName" ++ ": " ++
        quoted (parent PROJECT_ID GCP_LOCATION ++ "/connectionProfiles/" ++
                destination_profile_id destination_profile_config))
       (data r3) = true) /\
    (verb r4 = "PATCH" /\
     url r4 = "https://datastream.googleapis.com/v1/" ++
              parent PROJECT_ID GCP_LOCATION ++
              "/streams/" ++ stream_id stream_config ++ "?updateMask=state").
Proof.
  assert (Hurl : forall host tail : string,
            host ++ parent PROJECT_ID GCP_LOCATION ++ tail =
            host ++ "projects/" ++ PROJECT_ID ++ "/locations/" ++
            GCP_LOCATION ++ tail)
    by (intros; unfold parent; rewrite !append_assoc; reflexivity).
  unfold sequence.
  destruct typed as [|tok [|pw rest]]; run_main; cbn [invoked sent];
    intros Hinv; try discriminate Hinv;
    (do 4 eexists); (split; [reflexivity|]); rewrite !Hurl;
    exact (conj (conj eq_refl eq_refl)
             (conj (conj eq_refl eq_refl)
                (conj (conj eq_refl (conj eq_refl (stream_body_references _ _)))
                   (conj eq_refl eq_refl)))).
Qed.

(** X14: the text of the two profile bodies.  When the configured names and
    the typed password are made of plain characters and the port is an
    integer, the source-profile request is sent with the body
    [{"displayName": "...", "mysqlProfile": {"hostname": "...", "port": n,
    "username": "...", "password": "..."}, "staticServiceIpConnectivity": {}}];
    and when the destination-profile operation is entered, its body is
    [{"displayName": "...", "gcsProfile": {"bucketName": "...",
    "rootPath": "..."}}]. *)
Theorem profile_request_bodies (tok pw : string) (rest : list string)
    (api : list Request -> Request -> option Response) (port : Z) :
  Forall (fun s => all_chars plain s = true)
         [source_profile_name source_profile_config;
          source_db_hostname source_profile_config;
          source_db_username source_profile_config; pw] ->
  source_db_port source_profile_config = JInt port ->
  (exists req,
     sent_by OpSource false (events (main (boot (tok :: pw :: rest) api))) = [req] /\
     data req =
       "{" ++ in_quotes "displayName" ++ ": " ++
              in_quotes (source_profile_name source_profile_config) ++ ", " ++
              in_quotes "mysqlProfile" ++ ": {" ++
                in_quotes "hostname" ++ ": " ++
                in_quotes (source_db_hostname source_profile_config) ++ ", " ++
                in_quotes "port" ++ ": " ++
                NilZero.string_of_int (Z.to_int port) ++ ", " ++
                in_quotes "username" ++ ": " ++
                in_quotes (source_db_username source_profile_config) ++ ", " ++
                in_quotes "password" ++ ": " ++ in_quotes pw ++ "}, " ++
              in_quotes "staticServiceIpConnectivity" ++ ": {}}") /\
  (Forall (fun s => all_chars plain s = true)
          [destination_profile_name destination_profile_config;
           storage_bucket_name destination_profile_config;
           storage_bucket_prefix destination_profile_config] ->
   In OpDest (invoked (events (main (boot (tok :: pw :: rest) api)))) ->
   exists req,
     sent_by OpDest false (events (main (boot (tok :: pw :: rest) api))) = [req] /\
     data req =
       "{" ++ in_quotes "displayName" ++ ": " ++
              in_quotes (destination_profile_name destination_profile_config) ++
              ", " ++
              in_quotes "gcsProfile" ++ ": {" ++
                in_quotes "bucketName" ++ ": " ++
                in_quotes (storage_bucket_name destination_profile_config) ++
                ", " ++
                in_quotes "rootPath" ++ ": " ++
                in_quotes (storage_bucket_prefix destination_profile_config) ++
              "}}").
Proof.
  intros Hsrc Hport. split.
  - exists (request_of OpSource pw ("Bearer " ++ tok)).
    split; [apply entered_operation_sends, source_entered|].
    inversion Hsrc as [|? ? Hname Hsrc1]; subst.
    inversion Hsrc1 as [|? ? Hhost Hsrc2]; subst.
    inversion Hsrc2 as [|? ? Huser Hsrc3]; subst.
    inversion Hsrc3 as [|? ? Hpw _]; subst.
    clear Hsrc Hsrc1 Hsrc2 Hsrc3.
    enter_op. cbn [data json_dumps]. rewrite Hport. cbn [json_dumps].
    rewrite !quoted_plain by (first [assumption | reflexivity]).
    rewrite !append_assoc. reflexivity.
  - intros Hdst Hin.
    exists (request_of OpDest pw ("Bearer " ++ tok)).
    split; [exact (entered_operation_sends _ _ _ _ _ Hin)|].
    inversion Hdst as [|? ? Hname Hdst1]; subst.
    inversion Hdst1 as [|? ? Hbucket Hdst2]; subst.
    inversion Hdst2 as [|? ? Hprefix _]; subst.
    clear Hsrc Hdst Hdst1 Hdst2 Hin.
    enter_op. cbn [data json_dumps].
    rewrite !quoted_plain by (first [assumption | reflexivity]).
    rewrite !append_assoc. reflexivity.
Qed.

(** X15: the headers the script sets.  Once both lines are typed the
    source-profile operation is entered, and every operation entered calls
    [requests.request] once with [headers=] the dict of exactly two entries,
    the bearer credential and the JSON content type. *)
Theorem request_headers (token pw : string) (rest : list string)
    (api : list Request -> Request -> option Response) :
  In OpSource (invoked (events (main (boot (token :: pw :: rest) api)))) /\
  forall o, In o (invoked (events (main (boot (token :: pw :: rest) api)))) ->
    exists req,
      sent_by o false (events (main (boot (token :: pw :: rest) api))) = [req] /\
      headers req = [("Authorization", "Bearer " ++ token);
                     ("Content-Type", "application/json")].
Proof.
  split; [apply source_entered|]. intros o Ho.
  exists (request_of o pw ("Bearer " ++ token)).
  split; [exact (entered_operation_sends _ _ _ _ _ Ho) | destruct o; reflexivity].
Qed.

(** X16: the typed password is in the source-profile body as the JSON string of
    the member [password]; a password of plain characters is there
    verbatim. *)
Theorem password_in_source_body (tok pw : string) (rest : list string)
    (api : list Request -> Request -> option Response) (req : Request) :
  In req (sent_by OpSource false (events (main (boot (tok :: pw :: rest) api)))) ->
  is_substring (quoted "password" ++ ": " ++ quoted pw) (data req) = true /\
  (all_chars plain pw = true -> is_substring pw (data req) = true).
Proof.
  intros Hin.
  assert (Hreq : req = request_of OpSource pw ("Bearer " ++ tok)).
  { revert Hin. run_main; cbn [sent_by Op_eqb In]; intros [<-|[]]; reflexivity. }
  subst req. split; [apply source_body_password|].
  intros Hplain.
  apply (is_substring_trans _ (quoted pw)); [now apply is_substring_quoted_plain|].
  apply (is_substring_trans _ (quoted "password" ++ ": " ++ quoted pw));
    [|apply source_body_password].
  rewrite <- (append_empty_r (quoted pw)) at 2.
  apply is_substring_app_r, is_substring_app_r, is_substring_prefix, prefix_app.
Qed.

(** X17: for what this model holds (strings of code points 0 to 255, a port
    without floats), the bodies are 7-bit clean.  Once both lines are typed
    the source-profile operation is entered, and every operation entered
    sends its one request with a body of printable ASCII characters only,
    whatever the typed password and the configured texts contain:
    [json.dumps] escapes the rest. *)
Theorem bodies_printable (tok pw : string) (rest : list string)
    (api : list Request -> Request -> option Response) :
  In OpSource (invoked (events (main (boot (tok :: pw :: rest) api)))) /\
  forall o, In o (invoked (events (main (boot (tok :: pw :: rest) api)))) ->
    exists req,
      sent_by o false (events (main (boot (tok :: pw :: rest) api))) = [req] /\
      all_chars printable (data req) = true.
Proof.
  split; [apply source_entered|]. intros o Ho.
  exists (request_of o pw ("Bearer " ++ tok)).
  split; [exact (entered_operation_sends _ _ _ _ _ Ho)|].
  destruct o; enter_op; cbn [data]; apply json_dumps_printable.
Qed.

End Facts.

(** ** The sample runs *)

(** C1: with both profiles accepted and the stream creation answered 500
    with body [{"error":"invalid argument"}], the script prints that body and
    never enters [start_stream], but the process ends with status 0, not 1:
    [main] has no [else] for a failed [create_stream]. *)
Theorem failed_stream_exits_0 :
  exit_status (result Sample.failed_stream_run) = 0 /\
  printed (events Sample.failed_stream_run) =
    ["Source connection profile orders-mysql created successfully";
     "Destination connection profile orders-bucket-id created successfully";
     "Issue while creating stream: " ++ Sample.invalid_argument] /\
  returned (events Sample.failed_stream_run) =
    [(OpSource, true); (OpDest, true); (OpStream, false)] /\
  invoked (events Sample.failed_stream_run) = [OpSource; OpDest; OpStream].
Proof. vm_compute. repeat split. Qed.

(** The end-to-end runs: every call answers 200; everything exists already;
    the destination profile is refused; the start answers 409. *)
Example all_ok_run_completes :
  exit_status (result Sample.all_ok_run) = 0 /\
  printed (events Sample.all_ok_run) =
    ["Source connection profile orders-mysql created successfully";
     "Destination connection profile orders-bucket-id created successfully";
     "Stream orders-stream created successfully";
     "Stream orders-stream started successfully";
     "Process Completed!"].
Proof. vm_compute. split; reflexivity. Qed.

Example all_exist_run_completes :
  exit_status (result (Sample.run Sample.typed (canned Sample.all_exist))) = 0 /\
  printed (events (Sample.run Sample.typed (canned Sample.all_exist))) =
    ["Source connection profile orders-mysql already exist";
     "Destination connection profile orders-bucket-id already exist";
     "Stream orders-stream already exist";
     "Stream orders-stream started successfully";
     "Process Completed!"].
Proof. vm_compute. split; reflexivity. Qed.

Example destination_rejected_run_exits_1 :
  exit_status (result (Sample.run Sample.typed
                         (canned Sample.destination_rejected))) = 1 /\
  printed (events (Sample.run Sample.typed (canned Sample.destination_rejected))) =
    ["Source connection profile orders-mysql created successfully";
     "Issue while creating destination connection profile: bad bucket"].
Proof. vm_compute. split; reflexivity. Qed.

Example start_conflict_run_exits_1 :
  exit_status (result (Sample.run Sample.typed (canned Sample.start_conflict))) = 1 /\
  returned (events (Sample.run Sample.typed (canned Sample.start_conflict))) =
    [(OpSource, true); (OpDest, true); (OpStream, true); (OpStart, false)] /\
  sent_by OpStart false
          (events (Sample.run Sample.typed (canned Sample.start_conflict))) =
    [request_of Sample.project Sample.location Sample.source Sample.destination
                Sample.stream OpStart "" ("Bearer " ++ Sample.token)].
Proof. vm_compute. repeat split. Qed.

(** The body of the source-profile request, as [json.dumps] writes it. *)
Example source_body_sample :
  data (request_of Sample.project Sample.location Sample.source
                   Sample.destination Sample.stream OpSource
                   Sample.password ("Bearer " ++ Sample.token)) =
  "{" ++ quoted "displayName" ++ ": " ++ quoted "orders-mysql" ++ ", " ++
  quoted "mysqlProfile" ++ ": {" ++
    quoted "hostname" ++ ": " ++ quoted "10.20.0.7" ++ ", " ++
    quoted "port" ++ ": 3306, " ++
    quoted "username" ++ ": " ++ quoted "replicator" ++ ", " ++
    quoted "password" ++ ": " ++ quoted "s3cr3t-pw" ++ "}, " ++
  quoted "staticServiceIpConnectivity" ++ ": {}}".
Proof. reflexivity. Qed.

(** C2 as stated fails: each of the four operations returns [false] on a
    201 response, a status code of the 200 class. *)
Lemma status_201_reports_failure :
  Forall (fun o =>
            In (Recv (Sample.answer 201 "{}")) (events (Sample.created_201 o)) /\
            200 <= status_code (Sample.answer 201 "{}") < 300 /\
            result (Sample.created_201 o) = Normal false)
         [OpSource; OpDest; OpStream; OpStart].
Proof.
  repeat (apply Forall_cons;
          [split; [vm_compute; auto 10 | split; [simpl; lia | reflexivity]]|]).
  apply Forall_nil.
Qed.

(** On 200 the sample [create_destination_connection_profile] succeeds and
    names the profile id. *)
Lemma status_200_confirms_witness :
  In (Recv (Sample.answer 200 "{}")) (events Sample.destination_ok) /\
  status_code (Sample.answer 200 "{}") = 200 /\
  result Sample.destination_ok = Normal true /\
  exists line,
    printed (events Sample.destination_ok) = [line] /\
    is_substring (resource Sample.source Sample.destination Sample.stream OpDest)
                 line = true.
Proof.
  assert (Hin : In (Recv (Sample.answer 200 "{}")) (events Sample.destination_ok))
    by (vm_compute; auto 10).
  split; [exact Hin|]. split; [reflexivity|].
  exact (status_200_confirms Sample.project Sample.location Sample.source
           Sample.destination Sample.stream OpDest _ _ _ _ Hin eq_refl).
Defined.

(** On 409 the sample [create_stream] succeeds and the sample
    [start_stream] fails. *)
Lemma status_409_conflict_witness :
  (In (Recv (Sample.answer 409 "exists")) (events Sample.stream_exists) /\
   status_code (Sample.answer 409 "exists") = 409 /\
   OpStream <> OpStart /\
   result Sample.stream_exists = Normal true /\
   exists line,
     printed (events Sample.stream_exists) = [line] /\
     is_substring (resource Sample.source Sample.destination Sample.stream OpStream)
                  line = true) /\
  (In (Recv (Sample.answer 409 "exists")) (events Sample.start_conflicts) /\
   result Sample.start_conflicts = Normal false).
Proof.
  assert (Hin : In (Recv (Sample.answer 409 "exists")) (events Sample.stream_exists))
    by (vm_compute; auto 10).
  assert (Hin' : In (Recv (Sample.answer 409 "exists")) (events Sample.start_conflicts))
    by (vm_compute; auto 10).
  assert (Hne : OpStream <> OpStart) by discriminate.
  split.
  - split; [exact Hin|]. split; [reflexivity|]. split; [exact Hne|].
    exact (proj1 (status_409_conflict Sample.project Sample.location
                    Sample.source Sample.destination Sample.stream OpStream
                    _ _ _ _ Hin eq_refl) Hne).
  - split; [exact Hin'|].
    exact (proj2 (status_409_conflict Sample.project Sample.location
                    Sample.source Sample.destination Sample.stream OpStart
                    _ _ _ _ Hin' eq_refl) eq_refl).
Defined.

(** On 503 the sample [start_stream] fails and prints the body. *)
Lemma other_status_fails_witness :
  In (Recv (Sample.answer 503 "try later")) (events Sample.start_refused) /\
  accepted OpStart (status_code (Sample.answer 503 "try later")) = false /\
  result Sample.start_refused = Normal false /\
  exists line,
    printed (events Sample.start_refused) = [line] /\
    is_substring (text (Sample.answer 503 "try later")) line = true.
Proof.
  assert (Hin : In (Recv (Sample.answer 503 "try later")) (events Sample.start_refused))
    by (vm_compute; auto 10).
  split; [exact Hin|]. split; [reflexivity|].
  exact (other_status_fails Sample.project Sample.location Sample.source
           Sample.destination Sample.stream OpStart _ _ _ _ Hin eq_refl).
Defined.

(** With the source profile refused, the destination profile is not
    attempted. *)
Lemma short_circuit_witness :
  In (OpSource, false) (returned (events Sample.failed_source_run)) /\
  (position OpSource < position OpDest)%nat /\
  ~ In OpDest (invoked (events Sample.failed_source_run)).
Proof.
  assert (Hret : In (OpSource, false) (returned (events Sample.failed_source_run)))
    by (vm_compute; auto).
  assert (Hpos : (position OpSource < position OpDest)%nat) by (simpl; lia).
  split; [exact Hret|]. split; [exact Hpos|].
  exact (short_circuit Sample.project Sample.location Sample.source
           Sample.destination Sample.stream Sample.typed
           (canned Sample.source_rejected) OpSource OpDest Hret Hpos).
Defined.

(** The all-200 run sleeps 60 between the stream's creation and its start. *)
Lemma wait_before_start_witness :
  In (OpStream, true) (returned (events Sample.all_ok_run)) /\
  exists pre req3 resp line req4 post,
    events Sample.all_ok_run =
      (pre ++ [Call OpStream; Send req3; Recv resp; Print line;
               Return OpStream true; Sleep 60; Call OpStart; Send req4]
           ++ post)%list /\
    ~ In OpStart (invoked pre) /\
    sent post = [].
Proof.
  assert (Hret : In (OpStream, true) (returned (events Sample.all_ok_run)))
    by (vm_compute; auto).
  split; [exact Hret|].
  exact (wait_before_start Sample.project Sample.location Sample.source
           Sample.destination Sample.stream Sample.typed
           (canned Sample.all_ok) Hret).
Defined.

(** The stream request of the all-200 run. *)
Lemma requests_from_configuration_witness :
  In Sample.stream_request (sent_by OpStream false (events Sample.all_ok_run)) /\
  Sample.stream_request =
    request_of Sample.project Sample.location Sample.source Sample.destination
               Sample.stream OpStream Sample.password ("Bearer " ++ Sample.token) /\
  url Sample.stream_request =
    "https://datastream.clients6.google.com/v1alpha1/projects/acme-analytics" ++
    "/locations/us-central1/streams?streamId=orders-stream-id".
Proof.
  assert (Hin : In Sample.stream_request
                   (sent_by OpStream false (events Sample.all_ok_run)))
    by (vm_compute; auto).
  split; [exact Hin|].
  destruct (requests_from_configuration Sample.project Sample.location
              Sample.source Sample.destination Sample.stream Sample.typed
              (canned Sample.all_ok) OpStream _ Hin) as [Hreq Hstream].
  split; [exact Hreq | exact (proj1 (Hstream eq_refl))].
Defined.

(** C9 as stated fails: when the remote repeats in its error body what it
    was sent, the printed diagnostic contains the typed token and the typed
    password. *)
Lemma echoed_secrets_reach_console :
  exists line,
    In line (printed (events Sample.echoing_run)) /\
    is_substring Sample.token line = true /\
    is_substring Sample.password line = true.
Proof.
  exists (hd "" (printed (events Sample.echoing_run))).
  split; [vm_compute; auto | split; vm_compute; reflexivity].
Qed.

(** The run whose second request gets no response, played with another
    token and with another password: same terminal of four lines, traceback
    included; the requests do differ, in the [Authorization] value alone,
    respectively in the source-profile body alone. *)
Lemma secrets_only_through_responses_witness :
  List.length (terminal Sample.connection_error Sample.dropped_run) = 4%nat /\
  sent (events Sample.dropped_run) <>
    sent (events Sample.dropped_run_other_token) /\
  sent (events Sample.dropped_run) <>
    sent (events Sample.dropped_run_other_password) /\
  (received (events Sample.dropped_run) =
     received (events Sample.dropped_run_other_token) /\
   traceback Sample.connection_error Sample.dropped_run =
     traceback Sample.connection_error Sample.dropped_run_other_token /\
   terminal Sample.connection_error Sample.dropped_run =
     terminal Sample.connection_error Sample.dropped_run_other_token /\
   map without_authorization (sent (events Sample.dropped_run)) =
     map without_authorization (sent (events Sample.dropped_run_other_token))) /\
  (received (events Sample.dropped_run) =
     received (events Sample.dropped_run_other_password) /\
   traceback Sample.connection_error Sample.dropped_run =
     traceback Sample.connection_error Sample.dropped_run_other_password /\
   terminal Sample.connection_error Sample.dropped_run =
     terminal Sample.connection_error Sample.dropped_run_other_password /\
   without_source_body false (events Sample.dropped_run) =
     without_source_body false (events Sample.dropped_run_other_password)).
Proof.
  assert (Hsame : received (events Sample.dropped_run) =
                  received (events Sample.dropped_run_other_token))
    by reflexivity.
  assert (Htrace : traceback Sample.connection_error Sample.dropped_run =
                   traceback Sample.connection_error
                             Sample.dropped_run_other_token)
    by reflexivity.
  assert (Hsame' : received (events Sample.dropped_run) =
                   received (events Sample.dropped_run_other_password))
    by reflexivity.
  assert (Htrace' : traceback Sample.connection_error Sample.dropped_run =
                    traceback Sample.connection_error
                              Sample.dropped_run_other_password)
    by reflexivity.
  split; [reflexivity|].
  split; [intros H; vm_compute in H; discriminate H|].
  split; [intros H; vm_compute in H; discriminate H|].
  split.
  - split; [exact Hsame|]. split; [exact Htrace|].
    destruct (secrets_only_through_responses Sample.project Sample.location
                Sample.source Sample.destination Sample.stream
                Sample.token Sample.password Sample.other_token Sample.password
                [] [] (canned [Sample.answer 200 "{}"])
                (canned [Sample.answer 200 "{}"]) Sample.connection_error
                Hsame Htrace) as (Hterminal & Htoken & _).
    split; [exact Hterminal | exact (Htoken eq_refl)].
  - split; [exact Hsame'|]. split; [exact Htrace'|].
    destruct (secrets_only_through_responses Sample.project Sample.location
                Sample.source Sample.destination Sample.stream
                Sample.token Sample.password Sample.token Sample.other_password
                [] [] (canned [Sample.answer 200 "{}"])
                (canned [Sample.answer 200 "{}"]) Sample.connection_error
                Hsame' Htrace') as (Hterminal & _ & Hpassword).
    split; [exact Hterminal | exact (Hpassword eq_refl)].
Defined.

(** A traceback can show the token too: when the library refuses the header
    and quotes its value in the message. *)
Example traceback_can_show_token :
  exists line,
    In line (terminal Sample.invalid_header Sample.unsent_run) /\
    is_substring Sample.token line = true.
Proof.
  exists (last (terminal Sample.invalid_header Sample.unsent_run) "").
  split; [vm_compute; auto 10 | vm_compute; reflexivity].
Qed.

(** In the all-200 run the four operations are entered, four requests are
    sent and each carries the bearer credential. *)
Lemma bearer_header_witness :
  [Sample.password] <> [] /\
  invoked (events Sample.all_ok_run) = sequence /\
  List.length (sent (events Sample.all_ok_run)) = 4%nat /\
  Forall (fun req =>
            header "Authorization" (headers req) =
              Some ("Bearer " ++ Sample.token) /\
            header "Authorization" (headers req) <> Some Sample.token)
         (sent (events Sample.all_ok_run)) /\
  exists req,
    sent_by OpStart false (events Sample.all_ok_run) = [req] /\
    header "Authorization" (headers req) = Some ("Bearer " ++ Sample.token).
Proof.
  assert (Hrest : [Sample.password] <> []) by discriminate.
  assert (Hstart : In OpStart (invoked (events Sample.all_ok_run)))
    by (vm_compute; auto 10).
  split; [exact Hrest|]. split; [reflexivity|]. split; [reflexivity|].
  destruct (bearer_header Sample.project Sample.location Sample.source
              Sample.destination Sample.stream Sample.token [Sample.password]
              (canned Sample.all_ok)) as [Hall Hsent].
  split; [exact Hall | exact (proj2 (Hsent Hrest) OpStart Hstart)].
Defined.

(** ** More sample runs *)

(** The destination profile accepted, the stream creation is attempted. *)
Lemma success_continues_witness :
  In (OpDest, true) (returned (events Sample.failed_stream_run)) /\
  position OpStream = S (position OpDest) /\
  In OpStream (invoked (events Sample.failed_stream_run)).
Proof.
  assert (Hret : In (OpDest, true) (returned (events Sample.failed_stream_run)))
    by (vm_compute; auto).
  split; [exact Hret|]. split; [reflexivity|].
  exact (success_continues Sample.project Sample.location Sample.source
           Sample.destination Sample.stream Sample.typed
           (canned Sample.stream_rejected) OpDest OpStream Hret eq_refl).
Defined.

(** The source profile refused: [sys.exit(1)] right after the flag. *)
Lemma failure_exits_1_witness :
  In (OpSource, false) (returned (events Sample.failed_source_run)) /\
  OpSource <> OpStream /\
  result Sample.failed_source_run = SystemExit 1 /\
  last (events Sample.failed_source_run) (Sleep 0) = Return OpSource false.
Proof.
  assert (Hret : In (OpSource, false) (returned (events Sample.failed_source_run)))
    by (vm_compute; auto).
  assert (Hne : OpSource <> OpStream) by discriminate.
  split; [exact Hret|]. split; [exact Hne|].
  exact (failure_exits_1 Sample.project Sample.location Sample.source
           Sample.destination Sample.stream Sample.typed
           (canned Sample.source_rejected) OpSource Hret Hne).
Defined.

(** The destination profile request left without response. *)
Lemma no_response_aborts_operation_witness :
  received (events Sample.destination_unreachable) = [] /\
  result Sample.destination_unreachable = Raised RequestException /\
  events Sample.destination_unreachable =
    [Call OpDest;
     Send (request_of Sample.project Sample.location Sample.source
                      Sample.destination Sample.stream OpDest
                      Sample.password ("Bearer " ++ Sample.token))].
Proof.
  assert (Hnone : received (events Sample.destination_unreachable) = [])
    by reflexivity.
  split; [exact Hnone|].
  exact (no_response_aborts_operation Sample.project Sample.location
           Sample.source Sample.destination Sample.stream OpDest
           Sample.password ("Bearer " ++ Sample.token) (boot [] (canned []))
           Hnone).
Defined.

(** The run whose second request gets no response. *)
Lemma transport_failure_aborts_run_witness :
  result Sample.dropped_run = Raised RequestException /\
  exit_status (result Sample.dropped_run) = 1 /\
  List.length (invoked (events Sample.dropped_run)) =
    S (List.length (returned (events Sample.dropped_run))) /\
  exists req, last (events Sample.dropped_run) (Sleep 0) = Send req.
Proof.
  assert (Hraised : result Sample.dropped_run = Raised RequestException)
    by reflexivity.
  split; [exact Hraised|].
  exact (transport_failure_aborts_run Sample.project Sample.location
           Sample.source Sample.destination Sample.stream Sample.typed
           (canned [Sample.answer 200 "{}"]) Hraised).
Defined.

(** The operator types the token and nothing else. *)
Lemma missing_input_witness :
  (List.length [Sample.token] < 2)%nat /\
  result Sample.one_line_run = Raised EOFError /\
  sent (events Sample.one_line_run) = [] /\
  printed (events Sample.one_line_run) = [] /\
  exit_status (result Sample.one_line_run) = 1.
Proof.
  assert (Hlen : (List.length [Sample.token] < 2)%nat) by (simpl; lia).
  split; [exact Hlen|].
  exact (missing_input Sample.project Sample.location Sample.source
           Sample.destination Sample.stream [Sample.token]
           (canned Sample.all_ok) Hlen).
Defined.

(** Two conflicts with different bodies print the same line. *)
Lemma success_ignores_body_witness :
  In (Recv (Sample.answer 409 "exists")) (events Sample.stream_exists) /\
  In (Recv (Sample.answer 409 "ALREADY_EXISTS")) (events Sample.stream_exists') /\
  status_code (Sample.answer 409 "exists") =
    status_code (Sample.answer 409 "ALREADY_EXISTS") /\
  accepted OpStream (status_code (Sample.answer 409 "exists")) = true /\
  printed (events Sample.stream_exists) = printed (events Sample.stream_exists').
Proof.
  assert (H1 : In (Recv (Sample.answer 409 "exists")) (events Sample.stream_exists))
    by (vm_compute; auto 10).
  assert (H2 : In (Recv (Sample.answer 409 "ALREADY_EXISTS"))
                  (events Sample.stream_exists'))
    by (vm_compute; auto 10).
  split; [exact H1|]. split; [exact H2|]. split; [reflexivity|].
  split; [reflexivity|].
  exact (success_ignores_body Sample.project Sample.location Sample.source
           Sample.destination Sample.stream OpStream _ _ _ _ _ _ _ _
           H1 H2 eq_refl eq_refl).
Defined.

(** Everything exists already: the run still reaches the start. *)
Lemma accepted_creations_reach_start_witness :
  firstn 3 (received (events Sample.all_exist_run)) =
    [Sample.answer 409 "exists"; Sample.answer 409 "exists";
     Sample.answer 409 "exists"] /\
  Forall (fun r => status_code r = 200 \/ status_code r = 409)
         [Sample.answer 409 "exists"; Sample.answer 409 "exists";
          Sample.answer 409 "exists"] /\
  invoked (events Sample.all_exist_run) = sequence.
Proof.
  assert (Hrecv : firstn 3 (received (events Sample.all_exist_run)) =
                  [Sample.answer 409 "exists"; Sample.answer 409 "exists";
                   Sample.answer 409 "exists"]) by reflexivity.
  assert (Hall : Forall (fun r => status_code r = 200 \/ status_code r = 409)
                   [Sample.answer 409 "exists"; Sample.answer 409 "exists";
                    Sample.answer 409 "exists"])
    by (repeat constructor; right; reflexivity).
  split; [exact Hrecv|]. split; [exact Hall|].
  exact (accepted_creations_reach_start Sample.project Sample.location
           Sample.source Sample.destination Sample.stream Sample.typed
           (canned Sample.all_exist) _ _ _ Hrecv Hall).
Defined.

(** The sample password is in the first body, as typed. *)
Lemma password_in_source_body_witness :
  In Sample.source_request (sent_by OpSource false (events Sample.all_ok_run)) /\
  all_chars plain Sample.password = true /\
  is_substring (quoted "password" ++ ": " ++ quoted Sample.password)
               (data Sample.source_request) = true /\
  is_substring Sample.password (data Sample.source_request) = true.
Proof.
  assert (Hin : In Sample.source_request
                   (sent_by OpSource false (events Sample.all_ok_run)))
    by (vm_compute; auto).
  assert (Hplain : all_chars plain Sample.password = true) by reflexivity.
  split; [exact Hin|]. split; [exact Hplain|].
  destruct (password_in_source_body Sample.project Sample.location
              Sample.source Sample.destination Sample.stream
              Sample.token Sample.password [] (canned Sample.all_ok)
              Sample.source_request Hin) as [Hquoted Hverbatim].
  split; [exact Hquoted | exact (Hverbatim Hplain)].
Defined.

(** The all-200 run enters the four operations: its four requests are wired
    together. *)
Lemma request_wiring_witness :
  invoked (events Sample.all_ok_run) = sequence /\
  exists r1 r2 r3 r4,
    sent (events Sample.all_ok_run) = [r1; r2; r3; r4] /\
    url r1 = "https://datastream.googleapis.com/v1/" ++
             parent Sample.project Sample.location ++
             "/connectionProfiles?connectionProfileId=orders-mysql-id" /\
    url r2 = "https://datastream.clients6.google.com/v1alpha1/" ++
             parent Sample.project Sample.location ++
             "/connectionProfiles?connectionProfileId=orders-bucket-id" /\
    is_substring
      (quoted "sourceConnectionProfileName" ++ ": " ++
       quoted (parent Sample.project Sample.location ++
               "/connectionProfiles/orders-mysql-id"))
      (data r3) = true /\
    is_substring
      (quoted "destinationConnectionProfileName" ++ ": " ++
       quoted (parent Sample.project Sample.location ++
               "/connectionProfiles/orders-bucket-id"))
      (data r3) = true /\
    verb r4 = "PATCH" /\
    url r4 = "https://datastream.googleapis.com/v1/" ++
             parent Sample.project Sample.location ++
             "/streams/orders-stream-id?updateMask=state".
Proof.
  assert (Hinv : invoked (events Sample.all_ok_run) = sequence) by reflexivity.
  split; [exact Hinv|].
  destruct (request_wiring Sample.project Sample.location Sample.source
              Sample.destination Sample.stream Sample.typed
              (canned Sample.all_ok) Hinv)
    as (r1 & r2 & r3 & r4 & Hsent & [_ H1] & [_ H2] & (_ & _ & Hs & Hd) & [Hv H4]).
  exists r1, r2, r3, r4.
  exact (conj Hsent (conj H1 (conj H2 (conj Hs (conj Hd (conj Hv H4)))))).
Defined.

(** The two profile bodies of the all-200 run, as text. *)
Lemma profile_request_bodies_witness :
  Forall (fun s => all_chars plain s = true)
         ["orders-mysql"; "10.20.0.7"; "replicator"; Sample.password] /\
  source_db_port Sample.source = JInt 3306 /\
  (exists req,
     sent_by OpSource false (events Sample.all_ok_run) = [req] /\
     data req =
       "{" ++ in_quotes "displayName" ++ ": " ++ in_quotes "orders-mysql" ++
       ", " ++ in_quotes "mysqlProfile" ++ ": {" ++
         in_quotes "hostname" ++ ": " ++ in_quotes "10.20.0.7" ++ ", " ++
         in_quotes "port" ++ ": 3306, " ++
         in_quotes "username" ++ ": " ++ in_quotes "replicator" ++ ", " ++
         in_quotes "password" ++ ": " ++ in_quotes "s3cr3t-pw" ++ "}, " ++
       in_quotes "staticServiceIpConnectivity" ++ ": {}}") /\
  Forall (fun s => all_chars plain s = true)
         ["orders-bucket"; "acme-orders-cdc"; "/raw"] /\
  In OpDest (invoked (events Sample.all_ok_run)) /\
  (exists req,
     sent_by OpDest false (events Sample.all_ok_run) = [req] /\
     data req =
       "{" ++ in_quotes "displayName" ++ ": " ++ in_quotes "orders-bucket" ++
       ", " ++ in_quotes "gcsProfile" ++ ": {" ++
         in_quotes "bucketName" ++ ": " ++ in_quotes "acme-orders-cdc" ++ ", " ++
         in_quotes "rootPath" ++ ": " ++ in_quotes "/raw" ++ "}}").
Proof.
  assert (Hsrc : Forall (fun s => all_chars plain s = true)
                   ["orders-mysql"; "10.20.0.7"; "replicator"; Sample.password])
    by (repeat (apply Forall_cons; [reflexivity|]); apply Forall_nil).
  assert (Hport : source_db_port Sample.source = JInt 3306) by reflexivity.
  assert (Hdst : Forall (fun s => all_chars plain s = true)
                   ["orders-bucket"; "acme-orders-cdc"; "/raw"])
    by (repeat (apply Forall_cons; [reflexivity|]); apply Forall_nil).
  assert (Hin : In OpDest (invoked (events Sample.all_ok_run)))
    by (vm_compute; auto 10).
  destruct (profile_request_bodies Sample.project Sample.location Sample.source
              Sample.destination Sample.stream Sample.token Sample.password []
              (canned Sample.all_ok) 3306 Hsrc Hport) as [Hsource Hdest].
  split; [exact Hsrc|]. split; [exact Hport|]. split; [exact Hsource|].
  split; [exact Hdst|]. split; [exact Hin|]. exact (Hdest Hdst Hin).
Defined.

(** The headers of the start request of the all-200 run. *)
Lemma request_headers_witness :
  In OpStart (invoked (events Sample.all_ok_run)) /\
  exists req,
    sent_by OpStart false (events Sample.all_ok_run) = [req] /\
    headers req = [("Authorization", "Bearer " ++ Sample.token);
                   ("Content-Type", "application/json")].
Proof.
  assert (Hin : In OpStart (invoked (events Sample.all_ok_run)))
    by (vm_compute; auto 10).
  split; [exact Hin|].
  exact (proj2 (request_headers Sample.project Sample.location Sample.source
                  Sample.destination Sample.stream Sample.token Sample.password
                  [] (canned Sample.all_ok)) OpStart Hin).
Defined.

(** A password that is not printable ASCII still gives a printable body. *)
Lemma bodies_printable_witness :
  all_chars printable Sample.accented_password = false /\
  In OpSource (invoked (events Sample.accented_run)) /\
  exists req,
    sent_by OpSource false (events Sample.accented_run) = [req] /\
    all_chars printable (data req) = true.
Proof.
  split; [reflexivity|].
  destruct (bodies_printable Sample.project Sample.location Sample.source
              Sample.destination Sample.stream Sample.token
              Sample.accented_password [] (canned Sample.all_ok))
    as [Hin Hall].
  split; [exact Hin | exact (Hall OpSource Hin)].
Defined.

(** How that password is written: the accent as a [u00e9] escape, the quote
    after a backslash. *)
Example accented_password_escaped :
  is_substring ("caf" ++ String backslash "u00e9" ++
                String backslash (String dquote "s"))
               (data (nth 0 (sent (events Sample.accented_run))
                          {| verb := ""; url := ""; headers := []; data := "" |}))
    = true.
Proof. vm_compute. reflexivity. Qed.
